(** * Tfolex: folder membership resolution

    A shallow embedding of the algorithmic core of [tfolex.py]
    (class [TelegramDataExtractor]): the dialog classifier
    [_get_chat_type_string], the rule matcher [_get_rule_based_chat_names],
    the peer name resolver [_get_names_for_peers] and the loop of
    [_extract_folders] that builds one record per folder; and of the code
    around it: the selection of chat types in [_extract_master_list], the
    selection of folders in [_extract_folders], the flattening of rows in
    the CSV branch of [_export_data], and the dialogue of [_handle_login].
    Prompts, fetching and file output are not modelled: the functions take
    the accepted choices, the fetched dialogs and folders, and the client's
    answers as arguments.

    Python values are modelled as follows.
    - [str] is [string], a sequence of bytes; [sorted] on names is the
      lexicographic order on character codes, [String.le] (on UTF-8 text the
      order of the bytes is the order of the code points).
    - [int] is [Z]; [bool] is [bool].
    - an attribute read through [getattr(o, 'a', default)] is an [option]:
      [None] when the object has no such attribute. Names read that way
      ([title], [first_name]) are strings when present, as the annotation
      [list[str]] of the resolver says.
    - a [set] of names is a [gset string]; iterating a set is [elements],
      and the sorted result does not depend on that order
      ([sorted_iteration_order]).
    - the network client is an oracle [get_entity], giving for each peer the
      exception raised or the entity returned, together with the log of the
      requests issued so far; exceptions are explicit results.

    The code is modelled at two levels. The first takes dialogs that carry
    every attribute the code reads and entities whose names are strings.
    The second, [Raw], takes the objects as a library may hand them over: a
    dialog may lack [muted] and [unread_mark], and reading a missing
    attribute raises [AttributeError]; a name may be [None], and ordering
    it against a string raises [TypeError]. [raw_matcher_plain],
    [raw_peer_name_plain] and [raw_folder_record_run] say when the second
    level behaves as the first. Where a set is iterated and the order
    shows ([select_folders]), no statement depends on that order. *)

From Stdlib Require Import ZArith String Ascii List DecimalString.
From Stdlib Require Import DecimalPos DecimalZ.
From stdpp Require Import base option list gmap strings sorting.

Local Open Scope string_scope.
Local Open Scope Z_scope.
Local Open Scope list_scope.

(** ** Python helpers *)

Module Py.

(** [getattr(obj, 'attr', default)]: the attribute when the object has it,
    the (already evaluated) default otherwise. *)
Definition getattr {A : Type} (attr : option A) (dflt : A) : A :=
  match attr with
  | Some v => v
  | None => dflt
  end.

(** [str(n)] for an [int]: decimal digits, with a leading minus sign for
    negative numbers. *)
Definition str_of_int (n : Z) : string :=
  NilZero.string_of_int (Z.to_int n).

(** [x or dflt] for an optional string: [None] and the empty string are
    falsy. *)
Definition str_or (x : option string) (dflt : string) : string :=
  match x with
  | Some s => if decide (s = "") then dflt else s
  | None => dflt
  end.

(** [sorted(names)]: the names in increasing [str] order. *)
Definition sorted (names : list string) : list string :=
  merge_sort String.le names.

(** [set(names)]. *)
Definition set_of (names : list string) : gset string :=
  list_to_set names.

(** Exceptions that the modelled code can see. *)
Inductive Exn : Type :=
| IndexError
| RPCError (msg : string)
| AttributeError (attr : string)
| TypeError.

(** The outcome of a statement sequence: a value or a raised exception. *)
Inductive Res (A : Type) : Type :=
| Ok (a : A)
| Raise (e : Exn).
Arguments Ok {A} a.
Arguments Raise {A} e.

(** [l[k]]: a negative index counts from the end of the list; an index out
    of range raises [IndexError]. *)
Definition index {A : Type} (l : list A) (k : Z) : Res A :=
  let pos := if bool_decide (k < 0) then k + Z.of_nat (length l) else k in
  if bool_decide (pos < 0) then Raise IndexError
  else match l !! Z.to_nat pos with
       | Some x => Ok x
       | None => Raise IndexError
       end.

(** [sep.join(parts)] for a list of strings. *)
Fixpoint join (sep : string) (parts : list string) : string :=
  match parts with
  | [] => ""
  | x :: rest =>
      match rest with
      | [] => x
      | _ :: _ => x +:+ sep +:+ join sep rest
      end
  end.

End Py.

(** ** Data model *)

(** [PeerUser | PeerChat | PeerChannel] of [telethon.tl.types]: each kind
    carries its identifier under its own attribute name. *)
Module Peer.
Inductive t : Type :=
| PeerUser (user_id : Z)
| PeerChat (chat_id : Z)
| PeerChannel (channel_id : Z).

Definition user_id (p : t) : option Z :=
  match p with PeerUser i => Some i | _ => None end.
Definition chat_id (p : t) : option Z :=
  match p with PeerChat i => Some i | _ => None end.
Definition channel_id (p : t) : option Z :=
  match p with PeerChannel i => Some i | _ => None end.

End Peer.

(** An entity as the code reads it: [id] always, and [title], [first_name],
    [contact], [bot] only through [getattr] with a default. *)
Module Entity.
Record t : Type := mk {
  id : Z;
  title : option string;
  first_name : option string;
  contact : option bool;
  bot : option bool
}.
End Entity.

Module Dialog.
Record t : Type := mk {
  id : Z;
  name : string;
  is_group : bool;
  is_channel : bool;
  is_user : bool;
  muted : bool;
  unread_count : Z;
  unread_mark : bool;
  archived : bool;
  entity : Entity.t
}.
End Dialog.

(** [types.DialogFilter]; [title_text] is [folder.title.text]. *)
Module DialogFilter.
Record t : Type := mk {
  id : Z;
  title_text : string;
  emoticon : option string;
  pinned_peers : list Peer.t;
  include_peers : list Peer.t;
  exclude_peers : list Peer.t;
  contacts : bool;
  non_contacts : bool;
  groups : bool;
  broadcasts : bool;
  bots : bool;
  exclude_muted : bool;
  exclude_read : bool;
  exclude_archived : bool
}.
End DialogFilter.

(** The dictionary appended to [extracted_data] for one folder. *)
Module FolderRecord.
Record t : Type := mk {
  folder_name : string;
  folder_id : Z;
  emoticon : string;
  pinned_chats : list string;
  included_chats : list string;
  excluded_chats : list string;
  rule_contacts : bool;
  rule_non_contacts : bool;
  rule_groups : bool;
  rule_channels : bool;
  rule_bots : bool;
  rule_exclude_muted : bool;
  rule_exclude_read : bool;
  rule_exclude_archived : bool
}.
End FolderRecord.

(** ** Dialog classifier *)

Definition _get_chat_type_string (dialog : Dialog.t) : string :=
  if Dialog.is_group dialog then "Group"
  else if Dialog.is_channel dialog then "Channel"
  else if Dialog.is_user dialog then
    if Py.getattr (Entity.bot (Dialog.entity dialog)) false
    then "Bot" else "Personal"
  else "Unknown".

(** ** Folder rule matcher *)

(** The condition guarding [continue]. *)
Definition rule_excluded (folder : DialogFilter.t) (dialog : Dialog.t) : bool :=
  (DialogFilter.exclude_muted folder && Dialog.muted dialog)
  || (DialogFilter.exclude_read folder
      && bool_decide (Dialog.unread_count dialog = 0)
      && negb (Dialog.unread_mark dialog))
  || (DialogFilter.exclude_archived folder && Dialog.archived dialog).

Definition is_contact (dialog : Dialog.t) : bool :=
  Py.getattr (Entity.contact (Dialog.entity dialog)) false.

Definition is_bot (dialog : Dialog.t) : bool :=
  Py.getattr (Entity.bot (Dialog.entity dialog)) false.

Definition is_personal_non_contact (dialog : Dialog.t) : bool :=
  Dialog.is_user dialog && negb (is_contact dialog) && negb (is_bot dialog).

(** The condition guarding [matching_names.append(dialog.name)]. *)
Definition rule_included (folder : DialogFilter.t) (dialog : Dialog.t) : bool :=
  (DialogFilter.contacts folder && is_contact dialog)
  || (DialogFilter.groups folder && Dialog.is_group dialog)
  || (DialogFilter.broadcasts folder && Dialog.is_channel dialog)
  || (DialogFilter.bots folder && is_bot dialog)
  || (DialogFilter.non_contacts folder && is_personal_non_contact dialog).

(** One iteration of the loop over [all_dialogs], on the list built so far. *)
Definition rule_step (folder : DialogFilter.t)
    (matching_names : list string) (dialog : Dialog.t) : list string :=
  if rule_excluded folder dialog then matching_names
  else if rule_included folder dialog
       then matching_names ++ [Dialog.name dialog]
       else matching_names.

Definition _get_rule_based_chat_names (folder : DialogFilter.t)
    (all_dialogs : list Dialog.t) : list string :=
  fold_left (rule_step folder) all_dialogs [].

(** ** Network client *)

(** What [asyncio.gather(..., return_exceptions=True)] puts in a slot: the
    exception the request raised, or the entity it returned. *)
Inductive Outcome : Type :=
| Raised (e : Py.Exn)
| Returned (res : Entity.t).

Record Client : Type := { get_entity : Peer.t -> Outcome }.

(** Asynchronous code: it threads the log of the [get_entity] requests issued
    so far and may raise. *)
Module Async.
Definition t (A : Type) : Type :=
  list Peer.t -> Py.Res A * list Peer.t.

Definition ret {A : Type} (a : A) : t A :=
  fun log => (Py.Ok a, log).

Definition bind {A B : Type} (m : t A) (k : A -> t B) : t B :=
  fun log =>
    match m log with
    | (Py.Ok a, log') => k a log'
    | (Py.Raise e, log') => (Py.Raise e, log')
    end.

Definition lift {A : Type} (r : Py.Res A) : t A :=
  fun log => (r, log).
End Async.

Notation "'await' x <- m 'in' k" := (Async.bind m (fun x => k))
  (at level 10, x name, m at level 100, k at level 200).

(** [tasks = [self.client.get_entity(p) for p in peers]] followed by
    [await asyncio.gather] of the tasks with [return_exceptions=True]: one request per
    peer, one outcome per request, in the order of the peers. *)
Definition gather (client : Client) (peers : list Peer.t)
    : Async.t (list Outcome) :=
  fun log => (Py.Ok (map (get_entity client) peers), log ++ peers).

(** ** Peer name resolver *)

(** The value of [peer_id]: an [int] attribute or the string ['N/A']. *)
Inductive PeerId : Type :=
| IdInt (n : Z)
| IdStr (s : string).

Definition format_peer_id (v : PeerId) : string :=
  match v with
  | IdInt n => Py.str_of_int n
  | IdStr s => s
  end.

(** [getattr(peer, 'channel_id', getattr(peer, 'user_id', 'N/A'))]. *)
Definition peer_id_of (peer : Peer.t) : PeerId :=
  Py.getattr (IdInt <$> Peer.channel_id peer)
    (Py.getattr (IdInt <$> Peer.user_id peer) (IdStr "N/A")).

Definition placeholder (peer : Peer.t) : string :=
  "Unknown/Inaccessible Entity (ID: " +:+ format_peer_id (peer_id_of peer)
  +:+ ")".

(** [getattr(res, 'title', getattr(res, 'first_name', f'User {res.id}'))]. *)
Definition display_name (res : Entity.t) : string :=
  Py.getattr (Entity.title res)
    (Py.getattr (Entity.first_name res)
       ("User " +:+ Py.str_of_int (Entity.id res))).

(** The loop [for i, res in enumerate(results)], started at index [i] with
    the list [names] built so far; [peers[i]] raises [IndexError] out of
    range. *)
Fixpoint names_loop (peers : list Peer.t) (i : nat) (results : list Outcome)
    (names : list string) : Py.Res (list string) :=
  match results with
  | [] => Py.Ok names
  | Raised _ :: rest =>
      match peers !! i with
      | None => Py.Raise Py.IndexError
      | Some peer => names_loop peers (S i) rest (names ++ [placeholder peer])
      end
  | Returned res :: rest =>
      names_loop peers (S i) rest (names ++ [display_name res])
  end.

Definition _get_names_for_peers (client : Client) (peers : list Peer.t)
    : Async.t (list string) :=
  match peers with
  | [] => Async.ret []
  | _ :: _ =>
      await results <- gather client peers in
      Async.lift (names_loop peers 0 results [])
  end.

(** ** Folder membership resolver *)

(** The body of the loop [for folder in selected_folders]. *)
Definition folder_record (client : Client) (all_dialogs : list Dialog.t)
    (folder : DialogFilter.t) : Async.t FolderRecord.t :=
  await pinned_names <-
    _get_names_for_peers client (DialogFilter.pinned_peers folder) in
  await explicitly_included_names <-
    _get_names_for_peers client (DialogFilter.include_peers folder) in
  await explicitly_excluded_names <-
    _get_names_for_peers client (DialogFilter.exclude_peers folder) in
  let rule_based_names := _get_rule_based_chat_names folder all_dialogs in
  let combined_included_set :=
    Py.set_of explicitly_included_names ∪ Py.set_of rule_based_names in
  let final_included_names :=
    Py.sorted
      (filter (fun name => name ∉ explicitly_excluded_names)
         (elements combined_included_set)) in
  Async.ret
    {| FolderRecord.folder_name := DialogFilter.title_text folder;
       FolderRecord.folder_id := DialogFilter.id folder;
       FolderRecord.emoticon := Py.str_or (DialogFilter.emoticon folder) "None";
       FolderRecord.pinned_chats := pinned_names;
       FolderRecord.included_chats := final_included_names;
       FolderRecord.excluded_chats := explicitly_excluded_names;
       FolderRecord.rule_contacts := DialogFilter.contacts folder;
       FolderRecord.rule_non_contacts := DialogFilter.non_contacts folder;
       FolderRecord.rule_groups := DialogFilter.groups folder;
       FolderRecord.rule_channels := DialogFilter.broadcasts folder;
       FolderRecord.rule_bots := DialogFilter.bots folder;
       FolderRecord.rule_exclude_muted := DialogFilter.exclude_muted folder;
       FolderRecord.rule_exclude_read := DialogFilter.exclude_read folder;
       FolderRecord.rule_exclude_archived :=
         DialogFilter.exclude_archived folder |}.

(** [_extract_folders] from the point where the folders are selected and the
    dialogs fetched: the loop that fills [extracted_data]. Fetching, the menu
    and the export are input and output and are not modelled. *)
Fixpoint extract_loop (client : Client) (all_dialogs : list Dialog.t)
    (selected_folders : list DialogFilter.t)
    (extracted_data : list FolderRecord.t) : Async.t (list FolderRecord.t) :=
  match selected_folders with
  | [] => Async.ret extracted_data
  | folder :: rest =>
      await record <- folder_record client all_dialogs folder in
      extract_loop client all_dialogs rest (extracted_data ++ [record])
  end.

Definition _extract_folders (client : Client) (all_dialogs : list Dialog.t)
    (selected_folders : list DialogFilter.t) : Async.t (list FolderRecord.t) :=
  extract_loop client all_dialogs selected_folders [].

(** ** Master chat list *)

(** The dictionary appended to [extracted_data] for one dialog. *)
Module MasterRecord.
Record t : Type := mk {
  chat_name : string;
  chat_type : string;
  chat_id : Z;
  is_archived : bool
}.
End MasterRecord.

(** [filters = {1: "Personal", 2: "Group", 3: "Channel", 4: "Bot"}]. *)
Definition filters : gmap Z string :=
  list_to_map [(1, "Personal"); (2, "Group"); (3, "Channel"); (4, "Bot")].

(** [all(1 <= c <= 5 for c in choices)]: when false the prompt is repeated. *)
Definition valid_type_choices (choices : gset Z) : bool :=
  forallb (fun c => bool_decide (1 <= c <= 5)) (elements choices).

(** [selected_types], from the comprehension over [choices] and the update
    under choice 5. *)
Definition selected_types_of (choices : gset Z) : gset string :=
  let selected_types : gset string :=
    list_to_set (omap (fun c => filters !! c) (elements choices)) in
  if bool_decide (5 ∈ choices)
  then selected_types ∪ list_to_set (snd <$> map_to_list filters)
  else selected_types.

(** The dictionary built for a dialog whose type is [chat_type]. *)
Definition master_record (dialog : Dialog.t) (chat_type : string)
    : MasterRecord.t :=
  {| MasterRecord.chat_name := Dialog.name dialog;
     MasterRecord.chat_type := chat_type;
     MasterRecord.chat_id := Dialog.id dialog;
     MasterRecord.is_archived := Dialog.archived dialog |}.

(** One iteration of the loop over [iter_dialogs()]. *)
Definition master_step (selected_types : gset string)
    (extracted_data : list MasterRecord.t) (dialog : Dialog.t)
    : list MasterRecord.t :=
  let chat_type := _get_chat_type_string dialog in
  if bool_decide (selected_types = ∅)
     || bool_decide (chat_type ∈ selected_types)
  then extracted_data ++ [master_record dialog chat_type]
  else extracted_data.

(** [_extract_master_list] from the accepted set of choices and the dialogs
    that [iter_dialogs()] yields, up to the list handed to the export. *)
Definition _extract_master_list (choices : gset Z) (dialogs : list Dialog.t)
    : list MasterRecord.t :=
  fold_left (master_step (selected_types_of choices)) dialogs [].

(** ** Folder selection *)

(** An element of [dialog_filters_container.filters]: a [DialogFilter], or a
    filter of another class (the default folder, a shared chat list). *)
Inductive FilterEntry : Type :=
| Filter (f : DialogFilter.t)
| OtherFilter.

(** [[f for f in ....filters if isinstance(f, types.DialogFilter)]]. *)
Definition dialog_filters (entries : list FilterEntry)
    : list DialogFilter.t :=
  omap (fun e => match e with Filter f => Some f | OtherFilter => None end)
    entries.

(** [all(1 <= c <= len(folders) + 1 for c in choices)]. *)
Definition valid_folder_choices (folders : list DialogFilter.t)
    (choices : gset Z) : bool :=
  forallb (fun c => bool_decide (1 <= c <= Z.of_nat (length folders) + 1))
    (elements choices).

(** [[folders[i - 1] for i in choices if 1 <= i <= len(folders)]], on the
    choices still to visit and the list built so far. *)
Fixpoint select_loop (folders : list DialogFilter.t) (choices : list Z)
    (selected : list DialogFilter.t) : Py.Res (list DialogFilter.t) :=
  match choices with
  | [] => Py.Ok selected
  | i :: rest =>
      if bool_decide (1 <= i <= Z.of_nat (length folders))
      then match Py.index folders (i - 1) with
           | Py.Ok folder => select_loop folders rest (selected ++ [folder])
           | Py.Raise e => Py.Raise e
           end
      else select_loop folders rest selected
  end.

(** [selected_folders], from the accepted set of choices. *)
Definition select_folders (folders : list DialogFilter.t) (choices : gset Z)
    : Py.Res (list DialogFilter.t) :=
  if bool_decide (Z.of_nat (length folders) + 1 ∈ choices)
  then Py.Ok folders
  else select_loop folders (elements choices) [].

(** [_extract_folders] from the fetched container and dialogs and the
    accepted set of choices, up to the list handed to the export; with no
    folder nothing is processed. *)
Definition extract_selected (client : Client) (entries : list FilterEntry)
    (all_dialogs : list Dialog.t) (choices : gset Z)
    : Async.t (list FolderRecord.t) :=
  let folders := dialog_filters entries in
  match folders with
  | [] => Async.ret []
  | _ :: _ =>
      await selected_folders <- Async.lift (select_folders folders choices) in
      _extract_folders client all_dialogs selected_folders
  end.

(** ** Export to CSV *)

(** A value of a row dictionary. *)
Inductive Value : Type :=
| VStr (s : string)
| VInt (n : Z)
| VBool (b : bool)
| VList (l : list string).

(** A row dictionary: its items in insertion order. *)
Definition Row : Type := list (string * Value).

Definition master_row (r : MasterRecord.t) : Row :=
  [("chat_name", VStr (MasterRecord.chat_name r));
   ("chat_type", VStr (MasterRecord.chat_type r));
   ("chat_id", VInt (MasterRecord.chat_id r));
   ("is_archived", VBool (MasterRecord.is_archived r))].

Definition folder_row (r : FolderRecord.t) : Row :=
  [("folder_name", VStr (FolderRecord.folder_name r));
   ("folder_id", VInt (FolderRecord.folder_id r));
   ("emoticon", VStr (FolderRecord.emoticon r));
   ("pinned_chats", VList (FolderRecord.pinned_chats r));
   ("included_chats", VList (FolderRecord.included_chats r));
   ("excluded_chats", VList (FolderRecord.excluded_chats r));
   ("rule_contacts", VBool (FolderRecord.rule_contacts r));
   ("rule_non_contacts", VBool (FolderRecord.rule_non_contacts r));
   ("rule_groups", VBool (FolderRecord.rule_groups r));
   ("rule_channels", VBool (FolderRecord.rule_channels r));
   ("rule_bots", VBool (FolderRecord.rule_bots r));
   ("rule_exclude_muted", VBool (FolderRecord.rule_exclude_muted r));
   ("rule_exclude_read", VBool (FolderRecord.rule_exclude_read r));
   ("rule_exclude_archived", VBool (FolderRecord.rule_exclude_archived r))].

(** The value stored in [processed_row[key]]: a list becomes
    [", ".join(map(str, value))], anything else is kept. *)
Definition process_value (value : Value) : Value :=
  match value with
  | VList l => VStr (Py.join ", " l)
  | _ => value
  end.

Definition process_row (row : Row) : Row :=
  map (fun item => (fst item, process_value (snd item))) row.

(** What the CSV branch of [_export_data] hands to the writer: the field
    names, [processed_data[0].keys()], and the processed rows. With no data
    the function returns before writing anything. *)
Definition csv_table (data : list Row) : option (list string * list Row) :=
  match data with
  | [] => None
  | _ :: _ =>
      let processed_data := map process_row data in
      match Py.index processed_data 0 with
      | Py.Ok first => Some (map fst first, processed_data)
      | Py.Raise _ => None
      end
  end.

(** ** The objects as the library hands them over *)

(** The definitions above read [dialog.muted] and [dialog.unread_mark] as
    booleans and the [title] and [first_name] of an entity as strings. The
    code gets its objects from a library, and nothing in it makes sure that
    a dialog carries the two attributes or that a name is not [None].
    [Raw] models the same code on objects without these guarantees: an
    attribute of a dialog may be missing, in which case reading it raises
    [AttributeError]; an attribute of an entity, when present, holds a
    string or [None]; and ordering [None] against a string raises
    [TypeError]. *)
Module Raw.

Module Entity.
Record t : Type := mk {
  id : Z;
  title : option (option string);
  first_name : option (option string);
  contact : option bool;
  bot : option bool
}.
End Entity.

Module Dialog.
Record t : Type := mk {
  id : Z;
  name : string;
  is_group : bool;
  is_channel : bool;
  is_user : bool;
  muted : option bool;
  unread_count : Z;
  unread_mark : option bool;
  archived : bool;
  entity : Entity.t
}.
End Dialog.

(** The dictionary of a folder; a name in a list is a string or [None]. *)
Module FolderRecord.
Record t : Type := mk {
  folder_name : string;
  folder_id : Z;
  emoticon : string;
  pinned_chats : list (option string);
  included_chats : list (option string);
  excluded_chats : list (option string);
  rule_contacts : bool;
  rule_non_contacts : bool;
  rule_groups : bool;
  rule_channels : bool;
  rule_bots : bool;
  rule_exclude_muted : bool;
  rule_exclude_read : bool;
  rule_exclude_archived : bool
}.
End FolderRecord.

(** [obj.attr]: the attribute, or [AttributeError] when the object has
    none of that name. *)
Definition read {A : Type} (attr : string) (value : option A) : Py.Res A :=
  match value with
  | Some v => Py.Ok v
  | None => Py.Raise (Py.AttributeError attr)
  end.

(** [a and b], [a or b] and [not a] on booleans: the right operand is
    evaluated only when the left one does not decide. *)
Definition and_then (a b : Py.Res bool) : Py.Res bool :=
  match a with
  | Py.Ok true => b
  | Py.Ok false => Py.Ok false
  | Py.Raise e => Py.Raise e
  end.

Definition or_else (a b : Py.Res bool) : Py.Res bool :=
  match a with
  | Py.Ok true => Py.Ok true
  | Py.Ok false => b
  | Py.Raise e => Py.Raise e
  end.

Definition not_ (a : Py.Res bool) : Py.Res bool :=
  match a with
  | Py.Ok b => Py.Ok (negb b)
  | Py.Raise e => Py.Raise e
  end.

(** The condition guarding [continue]. *)
Definition rule_excluded (folder : DialogFilter.t) (dialog : Dialog.t)
    : Py.Res bool :=
  or_else
    (and_then (Py.Ok (DialogFilter.exclude_muted folder))
       (read "muted" (Dialog.muted dialog)))
    (or_else
       (and_then (Py.Ok (DialogFilter.exclude_read folder))
          (and_then (Py.Ok (bool_decide (Dialog.unread_count dialog = 0)))
             (not_ (read "unread_mark" (Dialog.unread_mark dialog)))))
       (and_then (Py.Ok (DialogFilter.exclude_archived folder))
          (Py.Ok (Dialog.archived dialog)))).

Definition is_contact (dialog : Dialog.t) : bool :=
  Py.getattr (Entity.contact (Dialog.entity dialog)) false.

Definition is_bot (dialog : Dialog.t) : bool :=
  Py.getattr (Entity.bot (Dialog.entity dialog)) false.

Definition is_personal_non_contact (dialog : Dialog.t) : bool :=
  Dialog.is_user dialog && negb (is_contact dialog) && negb (is_bot dialog).

(** The condition guarding [matching_names.append(dialog.name)]. *)
Definition rule_included (folder : DialogFilter.t) (dialog : Dialog.t)
    : bool :=
  (DialogFilter.contacts folder && is_contact dialog)
  || (DialogFilter.groups folder && Dialog.is_group dialog)
  || (DialogFilter.broadcasts folder && Dialog.is_channel dialog)
  || (DialogFilter.bots folder && is_bot dialog)
  || (DialogFilter.non_contacts folder && is_personal_non_contact dialog).

(** One iteration of the loop over [all_dialogs]. *)
Definition rule_step (folder : DialogFilter.t)
    (matching_names : list string) (dialog : Dialog.t)
    : Py.Res (list string) :=
  match rule_excluded folder dialog with
  | Py.Raise e => Py.Raise e
  | Py.Ok true => Py.Ok matching_names
  | Py.Ok false =>
      if rule_included folder dialog
      then Py.Ok (matching_names ++ [Dialog.name dialog])
      else Py.Ok matching_names
  end.

Fixpoint rule_loop (folder : DialogFilter.t) (dialogs : list Dialog.t)
    (matching_names : list string) : Py.Res (list string) :=
  match dialogs with
  | [] => Py.Ok matching_names
  | dialog :: rest =>
      match rule_step folder matching_names dialog with
      | Py.Ok names => rule_loop folder rest names
      | Py.Raise e => Py.Raise e
      end
  end.

Definition _get_rule_based_chat_names (folder : DialogFilter.t)
    (all_dialogs : list Dialog.t) : Py.Res (list string) :=
  rule_loop folder all_dialogs [].

(** A dialog adds an entry: the skip condition evaluates to false and the
    inclusion condition holds. *)
Definition rule_match (folder : DialogFilter.t) (dialog : Dialog.t) : bool :=
  match rule_excluded folder dialog with
  | Py.Ok false => rule_included folder dialog
  | _ => false
  end.

Inductive Outcome : Type :=
| Raised (e : Py.Exn)
| Returned (res : Entity.t).

Record Client : Type := { get_entity : Peer.t -> Outcome }.

Definition gather (client : Client) (peers : list Peer.t)
    : Async.t (list Outcome) :=
  fun log => (Py.Ok (map (get_entity client) peers), log ++ peers).

(** [getattr(res, 'title', getattr(res, 'first_name', f'User {res.id}'))]:
    the value of the first attribute that exists, be it [None]. *)
Definition display_name (res : Entity.t) : option string :=
  Py.getattr (Entity.title res)
    (Py.getattr (Entity.first_name res)
       (Some ("User " +:+ Py.str_of_int (Entity.id res)))).

Fixpoint names_loop (peers : list Peer.t) (i : nat) (results : list Outcome)
    (names : list (option string)) : Py.Res (list (option string)) :=
  match results with
  | [] => Py.Ok names
  | Raised _ :: rest =>
      match peers !! i with
      | None => Py.Raise Py.IndexError
      | Some peer =>
          names_loop peers (S i) rest (names ++ [Some (placeholder peer)])
      end
  | Returned res :: rest =>
      names_loop peers (S i) rest (names ++ [display_name res])
  end.

Definition _get_names_for_peers (client : Client) (peers : list Peer.t)
    : Async.t (list (option string)) :=
  match peers with
  | [] => Async.ret []
  | _ :: _ =>
      await results <- gather client peers in
      Async.lift (names_loop peers 0 results [])
  end.

(** What one slot of the resolver's output holds for a peer. *)
Definition peer_name (client : Client) (peer : Peer.t) : option string :=
  match get_entity client peer with
  | Raised _ => Some (placeholder peer)
  | Returned res => display_name res
  end.

(** The strings of a list of names, when none of them is [None]. *)
Fixpoint strings (names : list (option string)) : option (list string) :=
  match names with
  | [] => Some []
  | Some s :: rest =>
      match strings rest with
      | Some l => Some (s :: l)
      | None => None
      end
  | None :: _ => None
  end.

(** [sorted(names)]: a list of fewer than two names is returned without any
    comparison; otherwise every name is compared with another one, and
    comparing [None] raises [TypeError]. *)
Definition sorted (names : list (option string))
    : Py.Res (list (option string)) :=
  match strings names with
  | Some l => Py.Ok (Some <$> Py.sorted l)
  | None =>
      if bool_decide (length names <= 1)%nat then Py.Ok names
      else Py.Raise Py.TypeError
  end.

(** The body of the loop [for folder in selected_folders]. *)
Definition folder_record (client : Client) (all_dialogs : list Dialog.t)
    (folder : DialogFilter.t) : Async.t FolderRecord.t :=
  await pinned_names <-
    _get_names_for_peers client (DialogFilter.pinned_peers folder) in
  await explicitly_included_names <-
    _get_names_for_peers client (DialogFilter.include_peers folder) in
  await explicitly_excluded_names <-
    _get_names_for_peers client (DialogFilter.exclude_peers folder) in
  await rule_based_names <-
    Async.lift (_get_rule_based_chat_names folder all_dialogs) in
  let combined_included_set : gset (option string) :=
    list_to_set explicitly_included_names
    ∪ list_to_set (Some <$> rule_based_names) in
  await final_included_names <-
    Async.lift
      (sorted
         (filter (fun name => name ∉ explicitly_excluded_names)
            (elements combined_included_set))) in
  Async.ret
    {| FolderRecord.folder_name := DialogFilter.title_text folder;
       FolderRecord.folder_id := DialogFilter.id folder;
       FolderRecord.emoticon := Py.str_or (DialogFilter.emoticon folder) "None";
       FolderRecord.pinned_chats := pinned_names;
       FolderRecord.included_chats := final_included_names;
       FolderRecord.excluded_chats := explicitly_excluded_names;
       FolderRecord.rule_contacts := DialogFilter.contacts folder;
       FolderRecord.rule_non_contacts := DialogFilter.non_contacts folder;
       FolderRecord.rule_groups := DialogFilter.groups folder;
       FolderRecord.rule_channels := DialogFilter.broadcasts folder;
       FolderRecord.rule_bots := DialogFilter.bots folder;
       FolderRecord.rule_exclude_muted := DialogFilter.exclude_muted folder;
       FolderRecord.rule_exclude_read := DialogFilter.exclude_read folder;
       FolderRecord.rule_exclude_archived :=
         DialogFilter.exclude_archived folder |}.

Fixpoint extract_loop (client : Client) (all_dialogs : list Dialog.t)
    (selected_folders : list DialogFilter.t)
    (extracted_data : list FolderRecord.t) : Async.t (list FolderRecord.t) :=
  match selected_folders with
  | [] => Async.ret extracted_data
  | folder :: rest =>
      await record <- folder_record client all_dialogs folder in
      extract_loop client all_dialogs rest (extracted_data ++ [record])
  end.

Definition _extract_folders (client : Client) (all_dialogs : list Dialog.t)
    (selected_folders : list DialogFilter.t) : Async.t (list FolderRecord.t) :=
  extract_loop client all_dialogs selected_folders [].

Definition extract_selected (client : Client) (entries : list FilterEntry)
    (all_dialogs : list Dialog.t) (choices : gset Z)
    : Async.t (list FolderRecord.t) :=
  let folders := dialog_filters entries in
  match folders with
  | [] => Async.ret []
  | _ :: _ =>
      await selected_folders <- Async.lift (select_folders folders choices) in
      _extract_folders client all_dialogs selected_folders
  end.

End Raw.

(** ** Login *)

(** [_handle_login] as a dialogue with the client: the code makes a call,
    the client answers, and the answer decides the next call. A script is
    the list of the client's answers, in the order of the calls; what the
    user types at the prompts is handed to the client and does not steer
    the code otherwise. *)
Module Login.

(** The exceptions the handlers tell apart; [OtherError] is any other
    [Exception]. *)
Inductive Exn : Type :=
| PhoneCodeInvalidError
| PhoneCodeExpiredError
| SessionPasswordNeededError
| PasswordHashInvalidError
| ApiIdInvalidError
| ValueError
| OtherError.

(** An answer of the client: to [is_user_authorized()], to
    [send_code_request(phone_number)] (the [phone_code_hash] of the code
    sent, or an exception), to [sign_in] with a code and to [sign_in] with
    a password ([None] when the call returns). *)
Inductive Reply : Type :=
| IsAuthorized (b : bool)
| CodeRequest (r : Exn + string)
| SignIn (r : option Exn)
| SignInPassword (r : option Exn).

(** Where the code stands: at the first authorization test, at the test of
    the [while] loop, at [send_code_request], at [sign_in] with a code, or
    at [sign_in] with a password. [sent_code] is [None] or the code sent. *)
Inductive State : Type :=
| Start
| LoopHead (sent_code : option string)
| SendCode
| SignInCode (sent_code : string)
| Password (sent_code : option string).

(** How the function ends: it returns, it lets an exception through, it is
    still waiting for the next answer, or the script answers another call
    than the one made. *)
Inductive Outcome : Type :=
| Return (b : bool)
| Propagate (e : Exn)
| Waiting (s : State)
| Mismatch.

(** The [except] clauses of the [try] in the loop, with [sent_code] as it is
    when the exception is raised. *)
Definition handle (e : Exn) (sent_code : option string) : State + Outcome :=
  match e with
  | PhoneCodeInvalidError => inl (LoopHead sent_code)
  | PhoneCodeExpiredError => inl (LoopHead None)
  | SessionPasswordNeededError => inl (Password sent_code)
  | ApiIdInvalidError | ValueError => inr (Return false)
  | PasswordHashInvalidError | OtherError => inr (Return false)
  end.

Definition step (s : State) (r : Reply) : State + Outcome :=
  match s, r with
  | Start, IsAuthorized true => inr (Return true)
  | Start, IsAuthorized false => inl (LoopHead None)
  | LoopHead _, IsAuthorized true => inr (Return true)
  | LoopHead None, IsAuthorized false => inl SendCode
  | LoopHead (Some sent_code), IsAuthorized false => inl (SignInCode sent_code)
  | SendCode, CodeRequest (inr sent_code) => inl (SignInCode sent_code)
  | SendCode, CodeRequest (inl e) => handle e None
  | SignInCode sent_code, SignIn None => inl (LoopHead (Some sent_code))
  | SignInCode sent_code, SignIn (Some e) => handle e (Some sent_code)
  | Password sent_code, SignInPassword None => inl (LoopHead sent_code)
  | Password sent_code, SignInPassword (Some PasswordHashInvalidError) =>
      inl (Password sent_code)
  | Password _, SignInPassword (Some e) => inr (Propagate e)
  | _, _ => inr Mismatch
  end.

Fixpoint run (s : State) (script : list Reply) : Outcome :=
  match script with
  | [] => Waiting s
  | r :: rest =>
      match step s r with
      | inl s' => run s' rest
      | inr o => o
      end
  end.

(** The number of codes sent and of expired-code errors in a script. *)
Definition is_code_sent (r : Reply) : bool :=
  match r with
  | CodeRequest (inr _) => true
  | _ => false
  end.

Definition is_code_expired (r : Reply) : bool :=
  match r with
  | CodeRequest (inl PhoneCodeExpiredError) => true
  | SignIn (Some PhoneCodeExpiredError) => true
  | _ => false
  end.

Definition codes_sent (script : list Reply) : nat :=
  length (List.filter is_code_sent script).

Definition codes_expired (script : list Reply) : nat :=
  length (List.filter is_code_expired script).

(** 1 when a sent code is held in the state, 0 otherwise. *)
Definition held (s : State) : nat :=
  match s with
  | LoopHead (Some _) | SignInCode _ | Password (Some _) => 1
  | _ => 0
  end.

End Login.

Definition _handle_login (script : list Login.Reply) : Login.Outcome :=
  Login.run Login.Start script.

(** ** Derived notions used in the statements *)

(** The flags of [f2] allow at least what those of [f1] allow: every
    inclusion rule of [f1] is set in [f2] and every exclusion toggle of [f2]
    is set in [f1]. *)
Definition rules_le (f1 f2 : DialogFilter.t) : Prop :=
  (DialogFilter.contacts f1 = true -> DialogFilter.contacts f2 = true)
  /\ (DialogFilter.non_contacts f1 = true ->
      DialogFilter.non_contacts f2 = true)
  /\ (DialogFilter.groups f1 = true -> DialogFilter.groups f2 = true)
  /\ (DialogFilter.broadcasts f1 = true -> DialogFilter.broadcasts f2 = true)
  /\ (DialogFilter.bots f1 = true -> DialogFilter.bots f2 = true)
  /\ (DialogFilter.exclude_muted f2 = true ->
      DialogFilter.exclude_muted f1 = true)
  /\ (DialogFilter.exclude_read f2 = true ->
      DialogFilter.exclude_read f1 = true)
  /\ (DialogFilter.exclude_archived f2 = true ->
      DialogFilter.exclude_archived f1 = true).

(** The peers a folder makes the resolver request, in request order. *)
Definition folder_peers (folder : DialogFilter.t) : list Peer.t :=
  DialogFilter.pinned_peers folder ++ DialogFilter.include_peers folder
  ++ DialogFilter.exclude_peers folder.

(** A folder whose matching reads no attribute that a dialog may lack: only
    [exclude_muted] and [exclude_read] make the matcher read [muted] and
    [unread_mark]. *)
Definition reads_no_status (folder : DialogFilter.t) : Prop :=
  DialogFilter.exclude_muted folder = false
  /\ DialogFilter.exclude_read folder = false.

(** Every name the resolver gives for the peers of a folder is a string. *)
Definition names_are_strings (client : Raw.Client) (folder : DialogFilter.t)
    : Prop :=
  forall p, p ∈ folder_peers folder -> Raw.peer_name client p <> None.

(** A raw dialog seen as a dialog with both status attributes, a missing
    one read as false; a raw entity seen as an entity with string names, a
    [None] name read as a missing one. *)
Definition plain_entity (res : Raw.Entity.t) : Entity.t :=
  {| Entity.id := Raw.Entity.id res;
     Entity.title := mjoin (Raw.Entity.title res);
     Entity.first_name := mjoin (Raw.Entity.first_name res);
     Entity.contact := Raw.Entity.contact res;
     Entity.bot := Raw.Entity.bot res |}.

Definition plain_dialog (dialog : Raw.Dialog.t) : Dialog.t :=
  {| Dialog.id := Raw.Dialog.id dialog;
     Dialog.name := Raw.Dialog.name dialog;
     Dialog.is_group := Raw.Dialog.is_group dialog;
     Dialog.is_channel := Raw.Dialog.is_channel dialog;
     Dialog.is_user := Raw.Dialog.is_user dialog;
     Dialog.muted := default false (Raw.Dialog.muted dialog);
     Dialog.unread_count := Raw.Dialog.unread_count dialog;
     Dialog.unread_mark := default false (Raw.Dialog.unread_mark dialog);
     Dialog.archived := Raw.Dialog.archived dialog;
     Dialog.entity := plain_entity (Raw.Dialog.entity dialog) |}.

Definition plain_client (client : Raw.Client) : Client :=
  {| get_entity := fun p =>
       match Raw.get_entity client p with
       | Raw.Raised e => Raised e
       | Raw.Returned res => Returned (plain_entity res)
       end |}.

(** The character [c] occurs in [s]. *)
Fixpoint occurs (c : ascii) (s : string) : Prop :=
  match s with
  | EmptyString => False
  | String a rest => a = c \/ occurs c rest
  end.


(** A dialog adds an entry to [matching_names]: it is not skipped by the
    [continue] and the inclusion condition holds. *)
Definition rule_match (folder : DialogFilter.t) (dialog : Dialog.t) : bool :=
  negb (rule_excluded folder dialog) && rule_included folder dialog.

(** What one slot of the resolver's output holds for a peer: the body of the
    loop over [results], on the outcome of that peer's own request. *)
Definition peer_name (client : Client) (peer : Peer.t) : string :=
  match get_entity client peer with
  | Raised _ => placeholder peer
  | Returned res => display_name res
  end.

(** A dialog of Unknown type whose entity has no true [contact] or [bot]. *)
Definition unknown_plain (dialog : Dialog.t) : Prop :=
  Dialog.is_group dialog = false /\ Dialog.is_channel dialog = false
  /\ Dialog.is_user dialog = false
  /\ is_contact dialog = false /\ is_bot dialog = false.

(** ** Sample data *)

Module Examples.

Definition chat (title : string) : Entity.t :=
  Entity.mk 0 (Some title) None None None.

Definition user (first_name : string) (contact bot : bool) : Entity.t :=
  Entity.mk 0 None (Some first_name) (Some contact) (Some bot).

Definition group (id : Z) (name : string) (muted archived : bool)
    : Dialog.t :=
  Dialog.mk id name true false false muted 1 false archived (chat name).

Definition channel (id : Z) (name : string) : Dialog.t :=
  Dialog.mk id name false true false false 1 false false (chat name).

Definition unknown (id : Z) (name : string) : Dialog.t :=
  Dialog.mk id name false false false false 1 false false
    (Entity.mk id None None None None).

Definition groups_only (exclude_muted exclude_archived : bool)
    (pinned_peers include_peers exclude_peers : list Peer.t)
    : DialogFilter.t :=
  DialogFilter.mk 1 "Work" None pinned_peers include_peers exclude_peers
    false false true false false exclude_muted false exclude_archived.

(** A client that knows channel 1 as "Team Alpha" and user 7 as "Ann", and
    fails on everything else. *)
Definition client : Client :=
  {| get_entity := fun p =>
       match p with
       | Peer.PeerChannel 1 => Returned (chat "Team Alpha")
       | Peer.PeerUser 7 => Returned (user "Ann" true false)
       | _ => Raised (Py.RPCError "not found")
       end |}.

(** A client on which every request fails. *)
Definition offline : Client :=
  {| get_entity := fun _ => Raised (Py.RPCError "offline") |}.

Definition dialogs : list Dialog.t :=
  [group 10 "Team Alpha" false false; group 11 "Team Beta" false true;
   channel 12 "News"].

Definition muted_twin : Dialog.t := group 20 "Twin" true false.

(** Two distinct groups with one display name, the first one muted. *)
Definition twins : list Dialog.t :=
  [muted_twin; group 21 "Twin" false false].

Definition plain_unknown : Dialog.t := unknown 30 "Twin".

(** An Unknown dialog and a group with the same display name. *)
Definition namesakes : list Dialog.t :=
  [plain_unknown; group 31 "Twin" false false].

(** Folders with the groups rule only, without and with [exclude_muted],
    and with no explicit peers. *)
Definition all_groups : DialogFilter.t :=
  groups_only false false [] [] [].

Definition unmuted_groups : DialogFilter.t :=
  groups_only true false [] [] [].

(** A folder with explicit peers and no rule at all. *)
Definition explicit_only (pinned_peers include_peers exclude_peers
    : list Peer.t) : DialogFilter.t :=
  DialogFilter.mk 2 "Pinned" (Some "") pinned_peers include_peers
    exclude_peers false false false false false false false false.

(** A folder with the channels rule only. *)
Definition channels_only : DialogFilter.t :=
  DialogFilter.mk 3 "Feeds" None [] [] []
    false false false true false false false false.

(** A folder with the three rules on users. *)
Definition all_users : DialogFilter.t :=
  DialogFilter.mk 4 "People" None [] [] []
    true true false false true false false false.

(** A supergroup: both a group and a channel. *)
Definition supergroup : Dialog.t :=
  Dialog.mk 40 "Mega" true true false false 0 false false (chat "Mega").

(** A user who is neither a contact nor a bot. *)
Definition stranger : Dialog.t :=
  Dialog.mk 41 "Zed" false false true false 0 false false
    (user "Zed" false false).

End Examples.

(** Sample data for the raw objects: dialogs without [muted] and
    [unread_mark], and the entity of a deleted account, whose [first_name]
    is [None]. *)
Module RawExamples.

Definition chat (title : string) : Raw.Entity.t :=
  Raw.Entity.mk 0 (Some (Some title)) None None None.

Definition deleted_user (id : Z) : Raw.Entity.t :=
  Raw.Entity.mk id None (Some None) (Some false) (Some false).

Definition group (id : Z) (name : string) (archived : bool) : Raw.Dialog.t :=
  Raw.Dialog.mk id name true false false None 0 None archived (chat name).

Definition archived_twin : Raw.Dialog.t := group 20 "Twin" true.

(** Two distinct groups with one display name, the first one archived. *)
Definition twins : list Raw.Dialog.t :=
  [archived_twin; group 21 "Twin" false].

(** Folders with the groups rule and one exclusion toggle. *)
Definition unarchived_groups : DialogFilter.t :=
  DialogFilter.mk 1 "Work" None [] [] []
    false false true false false false false true.

Definition unmuted_groups : DialogFilter.t :=
  DialogFilter.mk 1 "Work" None [] [] []
    false false true false false true false false.

Definition unread_groups : DialogFilter.t :=
  DialogFilter.mk 1 "Work" None [] [] []
    false false true false false false true false.

(** A client that knows user 5 as a deleted account and channel 1 as
    "Team Alpha", and fails on everything else. *)
Definition client : Raw.Client :=
  {| Raw.get_entity := fun p =>
       match p with
       | Peer.PeerUser 5 => Raw.Returned (deleted_user 5)
       | Peer.PeerChannel 1 => Raw.Returned (chat "Team Alpha")
       | _ => Raw.Raised (Py.RPCError "not found")
       end |}.

(** A folder that lists the deleted account and the channel as included. *)
Definition with_deleted : DialogFilter.t :=
  DialogFilter.mk 5 "Old" None [] [Peer.PeerUser 5; Peer.PeerChannel 1] []
    false false false false false false false false.

(** A folder of unarchived groups that lists the channel as included. *)
Definition with_channel : DialogFilter.t :=
  DialogFilter.mk 6 "Team" None [] [Peer.PeerChannel 1] []
    false false true false false false false true.

End RawExamples.

(** The two scenarios of the specification. *)
Example scenario_excluded :
  folder_record Examples.client Examples.dialogs
    (Examples.groups_only false true [] [] [Peer.PeerChannel 1]) []
  = (Py.Ok (FolderRecord.mk "Work" 1 "None" [] [] ["Team Alpha"]
              false false true false false false false true),
     [Peer.PeerChannel 1]).
Proof. vm_compute. reflexivity. Qed.

Example scenario_sorted :
  _extract_folders Examples.client Examples.dialogs
    [Examples.groups_only false false [] [] []] []
  = (Py.Ok [FolderRecord.mk "Work" 1 "None" [] ["Team Alpha"; "Team Beta"] []
              false false true false false false false false],
     []).
Proof. vm_compute. reflexivity. Qed.

Example classify_samples :
  map _get_chat_type_string
    [Examples.group 1 "G" false false; Examples.channel 2 "C";
     Examples.unknown 3 "U";
     Dialog.mk 4 "Ann" false false true false 0 false false
       (Examples.user "Ann" true false);
     Dialog.mk 5 "Bot" false false true false 0 false false
       (Examples.user "Bot" false true);
     Dialog.mk 6 "Mega" true true false false 0 false false
       (Examples.chat "Mega")]
  = ["Group"; "Channel"; "Unknown"; "Personal"; "Bot"; "Group"].
Proof. reflexivity. Qed.

Example resolver_samples :
  _get_names_for_peers Examples.client
    [Peer.PeerUser 7; Peer.PeerChat 42; Peer.PeerChannel 1;
     Peer.PeerChannel (-5); Peer.PeerUser 9] []
  = (Py.Ok ["Ann"; "Unknown/Inaccessible Entity (ID: N/A)"; "Team Alpha";
            "Unknown/Inaccessible Entity (ID: -5)";
            "Unknown/Inaccessible Entity (ID: 9)"],
     [Peer.PeerUser 7; Peer.PeerChat 42; Peer.PeerChannel 1;
      Peer.PeerChannel (-5); Peer.PeerUser 9]).
Proof. vm_compute. reflexivity. Qed.

(** ** The rule matcher as a filter *)

Section RuleMatcher.
Variable folder : DialogFilter.t.

Lemma rule_step_match (names : list string) (dialog : Dialog.t) :
  rule_step folder names dialog
  = names ++ (if rule_match folder dialog then [Dialog.name dialog] else []).
Proof.
  unfold rule_step, rule_match.
  destruct (rule_excluded folder dialog), (rule_included folder dialog);
    simpl; by rewrite ?app_nil_r.
Qed.

Lemma rule_loop_filter (dialogs : list Dialog.t) (names : list string) :
  fold_left (rule_step folder) dialogs names
  = names ++ (Dialog.name <$> filter (fun d => rule_match folder d) dialogs).
Proof.
  revert names. induction dialogs as [|d ds IH]; intros names; simpl.
  - by rewrite app_nil_r.
  - rewrite IH, rule_step_match.
    destruct (rule_match folder d) eqn:Hd.
    + rewrite filter_cons_True by (by rewrite Hd).
      by rewrite <- app_assoc.
    + rewrite filter_cons_False by (rewrite Hd; exact id).
      by rewrite app_nil_r.
Qed.

Lemma rule_names_filter (dialogs : list Dialog.t) :
  _get_rule_based_chat_names folder dialogs
  = Dialog.name <$> filter (fun d => rule_match folder d) dialogs.
Proof. unfold _get_rule_based_chat_names. by rewrite rule_loop_filter. Qed.

Lemma rule_names_elem (dialogs : list Dialog.t) (n : string) :
  n ∈ _get_rule_based_chat_names folder dialogs
  <-> exists d, d ∈ dialogs /\ Dialog.name d = n
                /\ rule_excluded folder d = false
                /\ rule_included folder d = true.
Proof.
  rewrite rule_names_filter, list_elem_of_fmap. unfold rule_match. split.
  - intros (d & -> & Hd). apply list_elem_of_filter in Hd as [Hm Hin].
    exists d. apply Is_true_true, andb_true_iff in Hm as [Hx Hi].
    apply negb_true_iff in Hx. done.
  - intros (d & Hin & <- & Hx & Hi). exists d. split; [done|].
    apply list_elem_of_filter. split; [|done]. by rewrite Hx, Hi.
Qed.

Lemma rule_names_app (ds1 ds2 : list Dialog.t) :
  _get_rule_based_chat_names folder (ds1 ++ ds2)
  = _get_rule_based_chat_names folder ds1
    ++ _get_rule_based_chat_names folder ds2.
Proof. by rewrite !rule_names_filter, filter_app, fmap_app. Qed.

Lemma rule_names_cons (d : Dialog.t) (ds : list Dialog.t) :
  _get_rule_based_chat_names folder (d :: ds)
  = (if rule_match folder d then [Dialog.name d] else [])
    ++ _get_rule_based_chat_names folder ds.
Proof.
  rewrite !rule_names_filter.
  destruct (rule_match folder d) eqn:Hd.
  - by rewrite filter_cons_True by (by rewrite Hd).
  - by rewrite filter_cons_False by (rewrite Hd; exact id).
Qed.

End RuleMatcher.

(** ** The resolver as a map *)

Section Resolver.
Variable client : Client.

Lemma names_loop_map (peers : list Peer.t) :
  forall (rest : list Peer.t) (i : nat) (names : list string),
    drop i peers = rest ->
    names_loop peers i (map (get_entity client) rest) names
    = Py.Ok (names ++ map (peer_name client) rest).
Proof.
  induction rest as [|p rest IH]; intros i names Hdrop; simpl.
  - by rewrite app_nil_r.
  - assert (peers !! i = Some p) as Hp.
    { rewrite <- (Nat.add_0_r i), <- lookup_drop, Hdrop. done. }
    assert (drop (S i) peers = rest) as Hrest.
    { rewrite (drop_S _ _ _ Hp) in Hdrop. by injection Hdrop. }
    unfold peer_name at 1.
    destruct (get_entity client p) as [e|res].
    + rewrite Hp, IH by done. by rewrite <- app_assoc.
    + rewrite IH by done. by rewrite <- app_assoc.
Qed.

Lemma get_names_run (peers log : list Peer.t) :
  _get_names_for_peers client peers log
  = (Py.Ok (map (peer_name client) peers), log ++ peers).
Proof.
  destruct peers as [|p ps].
  - unfold _get_names_for_peers, Async.ret. by rewrite app_nil_r.
  - unfold _get_names_for_peers, Async.bind, gather, Async.lift.
    by rewrite (names_loop_map (p :: ps) (p :: ps) 0 []).
Qed.

End Resolver.

(** ** Sorting names *)

Lemma sorted_Permutation (names : list string) : Py.sorted names ≡ₚ names.
Proof. apply merge_sort_Permutation. Qed.

Lemma sorted_elem_of (names : list string) (n : string) :
  n ∈ Py.sorted names <-> n ∈ names.
Proof. by rewrite sorted_Permutation. Qed.

Lemma sorted_StronglySorted (names : list string) :
  StronglySorted String.le (Py.sorted names).
Proof. apply StronglySorted_merge_sort; apply _. Qed.

Lemma sorted_NoDup (names : list string) :
  NoDup names -> NoDup (Py.sorted names).
Proof. intros H. by rewrite sorted_Permutation. Qed.

(** The order in which a set is iterated does not show in the sorted list. *)
Lemma sorted_iteration_order (l1 l2 : list string) :
  l1 ≡ₚ l2 -> Py.sorted l1 = Py.sorted l2.
Proof.
  intros H. apply (StronglySorted_unique String.le).
  - apply sorted_StronglySorted.
  - apply sorted_StronglySorted.
  - by rewrite !sorted_Permutation.
Qed.

(** [String.le] is the lexicographic order on character codes: the empty
    string comes first, and two non-empty strings compare by their first
    characters, then by their tails. *)
Lemma str_le_nil (s : string) : String.le "" s.
Proof. by destruct s. Qed.

Lemma str_le_cons_nil (a : ascii) (s : string) : ~ String.le (String a s) "".
Proof. unfold String.le, String.leb. simpl. exact id. Qed.

Lemma str_le_cons (a b : ascii) (s t : string) :
  String.le (String a s) (String b t)
  <-> (N_of_ascii a < N_of_ascii b)%N \/ (a = b /\ String.le s t).
Proof.
  unfold String.le, String.leb. simpl. unfold Ascii.compare.
  destruct (N.compare_spec (N_of_ascii a) (N_of_ascii b)) as [Heq|Hlt|Hgt].
  - assert (a = b) as ->.
    { by rewrite <- (ascii_N_embedding a), Heq, ascii_N_embedding. }
    split; [by right|]. intros [Hlt|[_ H]]; [lia|done].
  - split; [by left|done].
  - split; [done|]. intros [Hlt|[-> _]]; lia.
Qed.

(** ** The record built for a folder *)

Lemma folder_record_run (client : Client) (all_dialogs : list Dialog.t)
    (folder : DialogFilter.t) (log : list Peer.t) :
  exists r,
    folder_record client all_dialogs folder log
    = (Py.Ok r,
       ((log ++ DialogFilter.pinned_peers folder)
          ++ DialogFilter.include_peers folder)
         ++ DialogFilter.exclude_peers folder)
    /\ FolderRecord.included_chats r
       = Py.sorted
           (filter
              (fun name =>
                 name ∉ map (peer_name client)
                          (DialogFilter.exclude_peers folder))
              (elements
                 (Py.set_of
                    (map (peer_name client)
                       (DialogFilter.include_peers folder))
                  ∪ Py.set_of
                      (_get_rule_based_chat_names folder all_dialogs)))).
Proof.
  unfold folder_record, Async.bind. rewrite !get_names_run.
  unfold Async.ret. eexists. split; reflexivity.
Qed.

Lemma included_chats_elem (client : Client) (all_dialogs : list Dialog.t)
    (folder : DialogFilter.t) (log : list Peer.t) (r : FolderRecord.t)
    (log' : list Peer.t) (n : string) :
  folder_record client all_dialogs folder log = (Py.Ok r, log') ->
  n ∈ FolderRecord.included_chats r
  <-> (n ∈ map (peer_name client) (DialogFilter.include_peers folder)
       \/ n ∈ _get_rule_based_chat_names folder all_dialogs)
      /\ n ∉ map (peer_name client) (DialogFilter.exclude_peers folder).
Proof.
  intros Hrun.
  destruct (folder_record_run client all_dialogs folder log)
    as (r0 & Hr0 & Hi).
  rewrite Hr0 in Hrun. injection Hrun as <- <-. rewrite Hi.
  rewrite sorted_elem_of, list_elem_of_filter, elem_of_elements.
  unfold Py.set_of. rewrite elem_of_union, !elem_of_list_to_set. tauto.
Qed.

(** The loop over the selected folders returns one record per folder, in the
    order of the folders, each built by the loop body. *)
Lemma extract_loop_run (client : Client) (all_dialogs : list Dialog.t)
    (selected_folders : list DialogFilter.t) :
  forall (extracted_data : list FolderRecord.t) (log : list Peer.t),
  exists records log',
    extract_loop client all_dialogs selected_folders extracted_data log
    = (Py.Ok (extracted_data ++ records), log')
    /\ Forall2
         (fun folder r =>
            exists l l',
              folder_record client all_dialogs folder l = (Py.Ok r, l'))
         selected_folders records.
Proof.
  induction selected_folders as [|folder rest IH];
    intros extracted_data log; simpl.
  - exists [], log. rewrite app_nil_r. split; [reflexivity|constructor].
  - destruct (folder_record_run client all_dialogs folder log)
      as (r & Hr & _).
    unfold Async.bind. rewrite Hr.
    destruct (IH (extracted_data ++ [r])
                (((log ++ DialogFilter.pinned_peers folder)
                    ++ DialogFilter.include_peers folder)
                   ++ DialogFilter.exclude_peers folder))
      as (records & log' & Hrun & Hall).
    exists (r :: records), log'. split.
    + rewrite Hrun. by rewrite <- app_assoc.
    + constructor; [eauto|done].
Qed.

(** ** Properties of the classifier *)

(** C3. The classifier returns one of the five categories Personal, Group,
    Channel, Bot, Unknown, which are pairwise distinct, and decides in this
    order: Group if [is_group]; else Channel if [is_channel]; else, if
    [is_user], Bot when the entity's [bot] attribute is true and Personal
    otherwise; else Unknown. A dialog that is both a group and a channel is a
    Group. *)
Theorem C3_classifier_precedence (dialog : Dialog.t) :
  _get_chat_type_string dialog
    ∈ ["Personal"; "Group"; "Channel"; "Bot"; "Unknown"]
  /\ NoDup ["Personal"; "Group"; "Channel"; "Bot"; "Unknown"]
  /\ (Dialog.is_group dialog = true ->
      _get_chat_type_string dialog = "Group")
  /\ (Dialog.is_group dialog = true -> Dialog.is_channel dialog = true ->
      _get_chat_type_string dialog = "Group")
  /\ (Dialog.is_group dialog = false -> Dialog.is_channel dialog = true ->
      _get_chat_type_string dialog = "Channel")
  /\ (Dialog.is_group dialog = false -> Dialog.is_channel dialog = false ->
      Dialog.is_user dialog = true ->
      Entity.bot (Dialog.entity dialog) = Some true ->
      _get_chat_type_string dialog = "Bot")
  /\ (Dialog.is_group dialog = false -> Dialog.is_channel dialog = false ->
      Dialog.is_user dialog = true ->
      Entity.bot (Dialog.entity dialog) <> Some true ->
      _get_chat_type_string dialog = "Personal")
  /\ (Dialog.is_group dialog = false -> Dialog.is_channel dialog = false ->
      Dialog.is_user dialog = false ->
      _get_chat_type_string dialog = "Unknown").
Proof.
  unfold _get_chat_type_string.
  split.
  { destruct (Dialog.is_group dialog), (Dialog.is_channel dialog),
      (Dialog.is_user dialog),
      (Py.getattr (Entity.bot (Dialog.entity dialog)) false);
      set_solver. }
  split.
  { compute_done. }
  repeat split.
  - by intros ->.
  - by intros -> _.
  - by intros -> ->.
  - by intros -> -> -> ->.
  - intros -> -> -> Hbot.
    destruct (Entity.bot (Dialog.entity dialog)) as [[|]|]; done.
  - by intros -> -> ->.
Qed.

(** ** Properties of the membership resolver *)

(** C1. For every folder and dialog list the body of the folder loop returns
    a record whose included names, as a set, are the union of the resolved
    explicitly-included names and the rule-based names, minus the resolved
    explicitly-excluded names; a name in the explicitly-excluded list is
    never among the included names. *)
Theorem C1_final_included_set (client : Client) (all_dialogs : list Dialog.t)
    (folder : DialogFilter.t) (log : list Peer.t) :
  exists r log',
    folder_record client all_dialogs folder log = (Py.Ok r, log')
    /\ Py.set_of (FolderRecord.included_chats r)
       = (Py.set_of (map (peer_name client) (DialogFilter.include_peers folder))
            ∪ Py.set_of (_get_rule_based_chat_names folder all_dialogs))
           ∖ Py.set_of
               (map (peer_name client) (DialogFilter.exclude_peers folder))
    /\ (forall n,
          n ∈ map (peer_name client) (DialogFilter.exclude_peers folder) ->
          n ∉ FolderRecord.included_chats r).
Proof.
  destruct (folder_record_run client all_dialogs folder log)
    as (r & Hrun & _).
  eexists r, _. split; [exact Hrun|].
  pose proof (fun n => included_chats_elem _ _ _ _ _ _ n Hrun) as Helem.
  split.
  - apply set_eq. intros n. unfold Py.set_of.
    rewrite elem_of_difference, elem_of_union, !elem_of_list_to_set.
    apply Helem.
  - intros n Hex Hin. apply Helem in Hin. tauto.
Qed.

(** C6. For every folder and dialog list, the included names of the record
    have no duplicates and are sorted in increasing string order. *)
Theorem C6_included_sorted_nodup (client : Client)
    (all_dialogs : list Dialog.t) (folder : DialogFilter.t)
    (log : list Peer.t) :
  exists r log',
    folder_record client all_dialogs folder log = (Py.Ok r, log')
    /\ NoDup (FolderRecord.included_chats r)
    /\ StronglySorted String.le (FolderRecord.included_chats r).
Proof.
  destruct (folder_record_run client all_dialogs folder log)
    as (r & Hrun & Hincl).
  eexists r, _. split; [exact Hrun|]. rewrite Hincl. split.
  - apply sorted_NoDup, NoDup_filter, NoDup_elements.
  - apply sorted_StronglySorted.
Qed.

(** Two groups named alike give one entry. *)
Example included_twins :
  folder_record Examples.offline Examples.twins
    (Examples.groups_only false false [] [] []) []
  = (Py.Ok (FolderRecord.mk "Work" 1 "None" [] ["Twin"] []
              false false true false false false false false), []).
Proof. vm_compute. reflexivity. Qed.

(** C9. For every folder, the pinned names and the excluded names of the
    record are the resolver's outputs on the pinned and excluded peer lists,
    slot by slot in the order of those lists, and the eight rule flags are
    those of the folder. *)
Theorem C9_ordered_lists_and_flags (client : Client)
    (all_dialogs : list Dialog.t) (folder : DialogFilter.t)
    (log : list Peer.t) :
  exists r log',
    folder_record client all_dialogs folder log = (Py.Ok r, log')
    /\ FolderRecord.pinned_chats r
       = map (peer_name client) (DialogFilter.pinned_peers folder)
    /\ FolderRecord.excluded_chats r
       = map (peer_name client) (DialogFilter.exclude_peers folder)
    /\ (forall log0,
          _get_names_for_peers client (DialogFilter.pinned_peers folder) log0
          = (Py.Ok (FolderRecord.pinned_chats r),
             log0 ++ DialogFilter.pinned_peers folder))
    /\ (forall log0,
          _get_names_for_peers client (DialogFilter.exclude_peers folder) log0
          = (Py.Ok (FolderRecord.excluded_chats r),
             log0 ++ DialogFilter.exclude_peers folder))
    /\ FolderRecord.rule_contacts r = DialogFilter.contacts folder
    /\ FolderRecord.rule_non_contacts r = DialogFilter.non_contacts folder
    /\ FolderRecord.rule_groups r = DialogFilter.groups folder
    /\ FolderRecord.rule_channels r = DialogFilter.broadcasts folder
    /\ FolderRecord.rule_bots r = DialogFilter.bots folder
    /\ FolderRecord.rule_exclude_muted r = DialogFilter.exclude_muted folder
    /\ FolderRecord.rule_exclude_read r = DialogFilter.exclude_read folder
    /\ FolderRecord.rule_exclude_archived r
       = DialogFilter.exclude_archived folder.
Proof.
  unfold folder_record, Async.bind. rewrite !get_names_run.
  unfold Async.ret. eexists _, _. split; [reflexivity|]. simpl.
  repeat split; intros; apply get_names_run.
Qed.

(** ** Properties of the peer name resolver *)

Lemma placeholder_nonempty (peer : Peer.t) : placeholder peer <> "".
Proof. unfold placeholder. discriminate. Qed.

(** A channel or user peer that fails keeps its identifier in its slot. *)
Lemma placeholder_channel (n : Z) :
  placeholder (Peer.PeerChannel n)
  = "Unknown/Inaccessible Entity (ID: " +:+ Py.str_of_int n +:+ ")".
Proof. reflexivity. Qed.

Lemma placeholder_user (n : Z) :
  placeholder (Peer.PeerUser n)
  = "Unknown/Inaccessible Entity (ID: " +:+ Py.str_of_int n +:+ ")".
Proof. reflexivity. Qed.

(** A slot depends on its own peer only: changing the outcome of other
    requests leaves it as it is. *)
Lemma slot_independent (c1 c2 : Client) (peers log1 log2 : list Peer.t)
    (i : nat) (p : Peer.t) :
  peers !! i = Some p ->
  get_entity c1 p = get_entity c2 p ->
  exists names1 names2,
    fst (_get_names_for_peers c1 peers log1) = Py.Ok names1
    /\ fst (_get_names_for_peers c2 peers log2) = Py.Ok names2
    /\ names1 !! i = names2 !! i.
Proof.
  intros Hp Heq. rewrite !get_names_run. eexists _, _.
  split; [reflexivity|]. split; [reflexivity|].
  rewrite !list_lookup_fmap, Hp. simpl. unfold peer_name. by rewrite Heq.
Qed.

(** C4. For every sequence of peers the resolver returns (it does not raise)
    a sequence of names of the same length, whose slot [i] is computed from
    peer [i] and the outcome of its own request; on the empty sequence it
    returns the empty sequence and leaves the request log as it was; when
    every request fails every slot holds the non-empty placeholder of its
    peer. *)
Theorem C4_resolver_alignment (client : Client) (peers log : list Peer.t) :
  exists names,
    _get_names_for_peers client peers log = (Py.Ok names, log ++ peers)
    /\ length names = length peers
    /\ (forall i p, peers !! i = Some p ->
          names !! i = Some (peer_name client p))
    /\ (peers = [] ->
        _get_names_for_peers client peers log = (Py.Ok [], log))
    /\ ((forall p, p ∈ peers -> exists e, get_entity client p = Raised e) ->
        forall i p, peers !! i = Some p ->
          names !! i = Some (placeholder p) /\ placeholder p <> "").
Proof.
  exists (map (peer_name client) peers).
  split; [apply get_names_run|].
  split; [apply length_map|].
  split.
  { intros i p Hp. by rewrite list_lookup_fmap, Hp. }
  split.
  { intros ->. reflexivity. }
  intros Hfail i p Hp. split; [|apply placeholder_nonempty].
  rewrite list_lookup_fmap, Hp. simpl. f_equal. unfold peer_name.
  destruct (Hfail p) as [e ->]; [|done].
  apply list_elem_of_lookup. eauto.
Qed.

(** C5. A failed chat peer gets the placeholder with [N/A] in place of its
    identifier, whatever the identifier is, while failed channel and user
    peers get theirs. *)
Theorem C5_chat_placeholder_lacks_id :
  (forall n : Z,
     placeholder (Peer.PeerChat n) = "Unknown/Inaccessible Entity (ID: N/A)")
  /\ _get_names_for_peers Examples.offline
       [Peer.PeerChat 42; Peer.PeerChannel 42; Peer.PeerUser 42] []
     = (Py.Ok ["Unknown/Inaccessible Entity (ID: N/A)";
               "Unknown/Inaccessible Entity (ID: 42)";
               "Unknown/Inaccessible Entity (ID: 42)"],
        [Peer.PeerChat 42; Peer.PeerChannel 42; Peer.PeerUser 42]).
Proof. split; [reflexivity|]. vm_compute. reflexivity. Qed.

Example display_name_samples :
  map display_name
    [Entity.mk 5 (Some "T") (Some "F") None None;
     Entity.mk 5 None (Some "F") None None;
     Entity.mk 5 None None None None;
     Entity.mk (-5) None None None None]
  = ["T"; "F"; "User 5"; "User -5"].
Proof. reflexivity. Qed.

(** ** Properties of the rule matcher *)

(** The three toggles, as the code tests them. *)
Lemma rule_excluded_true (folder : DialogFilter.t) (dialog : Dialog.t) :
  rule_excluded folder dialog = true
  <-> (DialogFilter.exclude_muted folder = true /\ Dialog.muted dialog = true)
      \/ (DialogFilter.exclude_read folder = true
          /\ Dialog.unread_count dialog = 0
          /\ Dialog.unread_mark dialog = false)
      \/ (DialogFilter.exclude_archived folder = true
          /\ Dialog.archived dialog = true).
Proof.
  unfold rule_excluded.
  rewrite !orb_true_iff, !andb_true_iff, negb_true_iff, bool_decide_eq_true.
  tauto.
Qed.

(** A dialog that adds no entry can be dropped from the dialog list. *)
Lemma rule_names_skip (folder : DialogFilter.t) (dialog : Dialog.t)
    (ds1 ds2 : list Dialog.t) :
  rule_match folder dialog = false ->
  _get_rule_based_chat_names folder (ds1 ++ dialog :: ds2)
  = _get_rule_based_chat_names folder (ds1 ++ ds2).
Proof.
  intros H. by rewrite !rule_names_app, rule_names_cons, H.
Qed.

(** When a dialog adds no entry, its name is in the result exactly when
    another dialog of that name adds one. *)
Lemma rule_names_other (folder : DialogFilter.t) (dialog : Dialog.t)
    (dialogs : list Dialog.t) :
  rule_match folder dialog = false ->
  Dialog.name dialog ∈ _get_rule_based_chat_names folder dialogs
  <-> exists d, d ∈ dialogs /\ d <> dialog
                /\ Dialog.name d = Dialog.name dialog
                /\ rule_excluded folder d = false
                /\ rule_included folder d = true.
Proof.
  intros H. rewrite rule_names_elem. split.
  - intros (d & Hin & Hn & Hx & Hi). exists d. repeat split; try done.
    intros ->. unfold rule_match in H. by rewrite Hx, Hi in H.
  - intros (d & Hin & _ & Hn & Hx & Hi). by exists d.
Qed.

(** C7, as amended. The matcher returns a list: the names, in dialog order,
    of the dialogs that are not skipped and satisfy at least one inclusion
    rule, one entry per such dialog however many rules it satisfies and
    none for the others. Equal names of distinct dialogs are repeated in it;
    they become one element when the list is turned into a set. *)
Theorem C7_matcher_list_semantics (folder : DialogFilter.t)
    (all_dialogs : list Dialog.t) :
  _get_rule_based_chat_names folder all_dialogs
  = Dialog.name <$> filter (fun d => rule_match folder d) all_dialogs
  /\ length (_get_rule_based_chat_names folder all_dialogs)
     = length (filter (fun d => rule_match folder d) all_dialogs)
  /\ (forall names d,
        rule_excluded folder d = false -> rule_included folder d = true ->
        rule_step folder names d = names ++ [Dialog.name d])
  /\ (forall names d,
        rule_excluded folder d = true \/ rule_included folder d = false ->
        rule_step folder names d = names)
  /\ NoDup (elements
              (Py.set_of (_get_rule_based_chat_names folder all_dialogs)))
  /\ (forall n,
        n ∈ elements
              (Py.set_of (_get_rule_based_chat_names folder all_dialogs))
        <-> n ∈ _get_rule_based_chat_names folder all_dialogs).
Proof.
  split; [apply rule_names_filter|].
  split; [by rewrite rule_names_filter, length_fmap|].
  split.
  { intros names d Hx Hi. unfold rule_step. by rewrite Hx, Hi. }
  split.
  { intros names d [Hx|Hi]; unfold rule_step.
    - by rewrite Hx.
    - rewrite Hi. by destruct (rule_excluded folder d). }
  split; [apply NoDup_elements|].
  intros n. unfold Py.set_of. by rewrite elem_of_elements, elem_of_list_to_set.
Qed.

(** C7, as stated, fails: two distinct groups with one name give the name
    twice in the matcher's result. *)
Lemma C7_counterexample :
  _get_rule_based_chat_names Examples.all_groups Examples.twins
  = ["Twin"; "Twin"]
  /\ ~ NoDup (_get_rule_based_chat_names Examples.all_groups Examples.twins).
Proof.
  split; [reflexivity|]. intros H.
  change (NoDup ["Twin"; "Twin"]) in H.
  apply NoDup_cons in H as [Hnotin _]. apply Hnotin. constructor.
Qed.

(** C10, as amended. For every folder and every dialog of Unknown type whose
    entity has no true [contact] or [bot], the five inclusion predicates are
    false, so the inclusion condition fails whatever the rule flags and the
    loop adds no entry for the dialog. Its name is in the matcher's result
    only through another dialog of the same name that is not skipped and
    satisfies a rule; short of that it is among the included names of the
    record only through the explicitly-included names. *)
Theorem C10_unknown_dialog_adds_no_entry (folder : DialogFilter.t)
    (dialog : Dialog.t) :
  unknown_plain dialog ->
  (is_contact dialog = false /\ Dialog.is_group dialog = false
   /\ Dialog.is_channel dialog = false /\ is_bot dialog = false
   /\ is_personal_non_contact dialog = false)
  /\ rule_included folder dialog = false
  /\ (forall names, rule_step folder names dialog = names)
  /\ (forall ds1 ds2,
        _get_rule_based_chat_names folder (ds1 ++ dialog :: ds2)
        = _get_rule_based_chat_names folder (ds1 ++ ds2))
  /\ (forall ds,
        Dialog.name dialog ∈ _get_rule_based_chat_names folder ds
        <-> exists d, d ∈ ds /\ d <> dialog
                      /\ Dialog.name d = Dialog.name dialog
                      /\ rule_excluded folder d = false
                      /\ rule_included folder d = true)
  /\ (forall client ds log r log',
        folder_record client ds folder log = (Py.Ok r, log') ->
        Dialog.name dialog ∈ FolderRecord.included_chats r ->
        Dialog.name dialog
          ∈ map (peer_name client) (DialogFilter.include_peers folder)
        \/ exists d, d ∈ ds /\ d <> dialog
                     /\ Dialog.name d = Dialog.name dialog
                     /\ rule_excluded folder d = false
                     /\ rule_included folder d = true).
Proof.
  intros (Hg & Hc & Hu & Hct & Hb).
  assert (is_personal_non_contact dialog = false) as Hp.
  { unfold is_personal_non_contact. by rewrite Hu. }
  assert (rule_included folder dialog = false) as Hi.
  { unfold rule_included. rewrite Hg, Hc, Hct, Hb, Hp.
    by rewrite !andb_false_r. }
  assert (rule_match folder dialog = false) as Hm.
  { unfold rule_match. rewrite Hi. apply andb_false_r. }
  split; [done|]. split; [done|]. split; [|split; [|split]].
  - intros names. unfold rule_step. rewrite Hi.
    by destruct (rule_excluded folder dialog).
  - intros ds1 ds2. by apply rule_names_skip.
  - intros ds. by apply rule_names_other.
  - intros client ds log r log' Hrun Hin.
    apply (included_chats_elem _ _ _ _ _ _ _ Hrun) in Hin
      as [[Hexp|Hrule] _]; [by left|right].
    by apply rule_names_other in Hrule.
Qed.

Lemma C10_unknown_dialog_adds_no_entry_witness :
  rule_included Examples.all_groups Examples.plain_unknown = false
  /\ (forall names,
        rule_step Examples.all_groups names Examples.plain_unknown = names).
Proof.
  assert (unknown_plain Examples.plain_unknown) as H.
  { repeat split. }
  destruct (C10_unknown_dialog_adds_no_entry Examples.all_groups
              Examples.plain_unknown H) as (_ & Hi & Hs & _).
  split; [exact Hi | exact Hs].
Defined.

(** C10, as stated, fails: the name of an Unknown dialog is in the matcher's
    result, and among the included names of a folder with no explicit peers,
    when a group has the same name. *)
Lemma C10_counterexample :
  unknown_plain Examples.plain_unknown
  /\ Examples.plain_unknown ∈ Examples.namesakes
  /\ Dialog.name Examples.plain_unknown
       ∈ _get_rule_based_chat_names Examples.all_groups Examples.namesakes
  /\ DialogFilter.include_peers Examples.all_groups = []
  /\ exists r log',
       folder_record Examples.offline Examples.namesakes Examples.all_groups []
       = (Py.Ok r, log')
       /\ Dialog.name Examples.plain_unknown ∈ FolderRecord.included_chats r.
Proof.
  split; [repeat split|]. split; [constructor|]. split; [constructor|].
  split; [reflexivity|].
  eexists _, _. split; [vm_compute; reflexivity|]. constructor.
Qed.

(** ** Further properties of the rule matcher *)

Lemma filter_sublist_impl {A : Type} (P Q : A -> Prop)
    `{forall x, Decision (P x)} `{forall x, Decision (Q x)} (l : list A) :
  (forall x, P x -> Q x) -> filter P l `sublist_of` filter Q l.
Proof.
  intros HPQ. induction l as [|x l IH]; [done|].
  rewrite !filter_cons. destruct (decide (P x)) as [HP|HP].
  - rewrite decide_True by auto. by constructor.
  - destruct (decide (Q x)); [by constructor|done].
Qed.

(** The matcher's result is a sublist of the dialog names: the names come
    in dialog order and there are at most as many as dialogs. *)
Theorem rule_names_sublist (folder : DialogFilter.t)
    (all_dialogs : list Dialog.t) :
  _get_rule_based_chat_names folder all_dialogs
    `sublist_of` (Dialog.name <$> all_dialogs)
  /\ (length (_get_rule_based_chat_names folder all_dialogs)
      <= length all_dialogs)%nat.
Proof.
  rewrite rule_names_filter. split.
  - apply fmap_sublist, sublist_filter.
  - rewrite length_fmap. apply length_filter.
Qed.

Lemma rule_included_true (folder : DialogFilter.t) (d : Dialog.t) :
  rule_included folder d = true
  <-> (DialogFilter.contacts folder = true /\ is_contact d = true)
      \/ (DialogFilter.groups folder = true /\ Dialog.is_group d = true)
      \/ (DialogFilter.broadcasts folder = true
          /\ Dialog.is_channel d = true)
      \/ (DialogFilter.bots folder = true /\ is_bot d = true)
      \/ (DialogFilter.non_contacts folder = true
          /\ is_personal_non_contact d = true).
Proof.
  unfold rule_included. rewrite !orb_true_iff, !andb_true_iff. tauto.
Qed.

Lemma rule_match_true (folder : DialogFilter.t) (d : Dialog.t) :
  rule_match folder d = true
  <-> rule_excluded folder d = false /\ rule_included folder d = true.
Proof.
  unfold rule_match. by rewrite andb_true_iff, negb_true_iff.
Qed.

Lemma rule_match_mono (f1 f2 : DialogFilter.t) (d : Dialog.t) :
  rules_le f1 f2 -> rule_match f1 d = true -> rule_match f2 d = true.
Proof.
  intros (Hc & Hn & Hg & Hb & Ho & Hm & Hr & Ha).
  rewrite !rule_match_true. intros [Hx Hi]. split.
  - apply not_true_is_false. intros Hx2.
    apply rule_excluded_true in Hx2.
    assert (rule_excluded f1 d = true) as Hx1; [|congruence].
    apply rule_excluded_true. tauto.
  - apply rule_included_true. apply rule_included_true in Hi. tauto.
Qed.

(** Setting more inclusion rules or fewer exclusion toggles only adds names:
    the result for the narrower flags is a sublist of the result for the
    wider ones. *)
Theorem rule_names_monotone (f1 f2 : DialogFilter.t)
    (all_dialogs : list Dialog.t) :
  rules_le f1 f2 ->
  _get_rule_based_chat_names f1 all_dialogs
    `sublist_of` _get_rule_based_chat_names f2 all_dialogs.
Proof.
  intros Hle. rewrite !rule_names_filter. apply fmap_sublist.
  apply filter_sublist_impl. intros d Hd.
  apply Is_true_true. apply Is_true_true in Hd.
  by apply (rule_match_mono f1 f2).
Qed.

Lemma rule_names_monotone_witness :
  _get_rule_based_chat_names Examples.unmuted_groups Examples.twins
    `sublist_of` _get_rule_based_chat_names Examples.all_groups Examples.twins.
Proof.
  apply (rule_names_monotone Examples.unmuted_groups Examples.all_groups).
  repeat split; simpl; auto.
Defined.

(** A folder with none of the five inclusion rules matches no dialog, so
    the included names of its record are its explicitly-included names
    without the explicitly-excluded ones, whatever the dialogs are. *)
Theorem no_rules_explicit_only (client : Client)
    (all_dialogs : list Dialog.t) (folder : DialogFilter.t)
    (log : list Peer.t) :
  DialogFilter.contacts folder = false ->
  DialogFilter.non_contacts folder = false ->
  DialogFilter.groups folder = false ->
  DialogFilter.broadcasts folder = false ->
  DialogFilter.bots folder = false ->
  _get_rule_based_chat_names folder all_dialogs = []
  /\ exists r log',
       folder_record client all_dialogs folder log = (Py.Ok r, log')
       /\ forall n,
            n ∈ FolderRecord.included_chats r
            <-> n ∈ map (peer_name client) (DialogFilter.include_peers folder)
                /\ n ∉ map (peer_name client)
                         (DialogFilter.exclude_peers folder).
Proof.
  intros Hc Hn Hg Hb Ho.
  assert (_get_rule_based_chat_names folder all_dialogs = []) as Hnil.
  { rewrite rule_names_filter.
    replace (filter (fun d => rule_match folder d) all_dialogs)
      with (@nil Dialog.t); [done|].
    symmetry. induction all_dialogs as [|d ds IH]; [done|].
    rewrite filter_cons_False; [done|].
    unfold rule_match, rule_included. rewrite Hc, Hn, Hg, Hb, Ho. simpl.
    rewrite andb_false_r. exact id. }
  split; [done|].
  destruct (folder_record_run client all_dialogs folder log) as (r & Hrun & _).
  eexists r, _. split; [exact Hrun|]. intros n.
  rewrite (included_chats_elem _ _ _ _ _ _ n Hrun), Hnil.
  rewrite elem_of_nil. tauto.
Qed.

Lemma no_rules_explicit_only_witness :
  _get_rule_based_chat_names
    (Examples.explicit_only [] [Peer.PeerUser 7] []) Examples.dialogs = []
  /\ exists r log',
       folder_record Examples.client Examples.dialogs
         (Examples.explicit_only [] [Peer.PeerUser 7] []) [] = (Py.Ok r, log')
       /\ forall n,
            n ∈ FolderRecord.included_chats r
            <-> n ∈ map (peer_name Examples.client) [Peer.PeerUser 7]
                /\ n ∉ map (peer_name Examples.client) [].
Proof.
  apply (no_rules_explicit_only Examples.client Examples.dialogs
           (Examples.explicit_only [] [Peer.PeerUser 7] []) []);
    reflexivity.
Defined.

(** A dialog that is both a group and a channel is classified as a Group,
    yet a folder whose channels rule is set takes it in (unless an exclusion
    toggle skips it): the matcher tests [is_channel] alone. *)
Theorem supergroup_matches_channels_rule (folder : DialogFilter.t)
    (all_dialogs : list Dialog.t) (dialog : Dialog.t) :
  dialog ∈ all_dialogs ->
  Dialog.is_group dialog = true ->
  Dialog.is_channel dialog = true ->
  DialogFilter.broadcasts folder = true ->
  rule_excluded folder dialog = false ->
  _get_chat_type_string dialog = "Group"
  /\ Dialog.name dialog ∈ _get_rule_based_chat_names folder all_dialogs.
Proof.
  intros Hin Hg Hc Hb Hx. split.
  - unfold _get_chat_type_string. by rewrite Hg.
  - apply rule_names_elem. exists dialog. repeat split; try done.
    apply rule_included_true. tauto.
Qed.

Lemma supergroup_matches_channels_rule_witness :
  _get_chat_type_string Examples.supergroup = "Group"
  /\ Dialog.name Examples.supergroup
       ∈ _get_rule_based_chat_names Examples.channels_only
           [Examples.supergroup].
Proof.
  apply (supergroup_matches_channels_rule Examples.channels_only
           [Examples.supergroup] Examples.supergroup);
    first [constructor | reflexivity].
Defined.

(** The three rules on users leave no user out: a user dialog is a contact,
    a bot, or a personal non-contact, and the last excludes the other two;
    so a folder with contacts, non-contacts and bots set takes in every user
    dialog that no exclusion toggle skips. *)
Theorem user_rules_cover (folder : DialogFilter.t)
    (all_dialogs : list Dialog.t) (dialog : Dialog.t) :
  dialog ∈ all_dialogs ->
  Dialog.is_user dialog = true ->
  DialogFilter.contacts folder = true ->
  DialogFilter.non_contacts folder = true ->
  DialogFilter.bots folder = true ->
  rule_excluded folder dialog = false ->
  (is_personal_non_contact dialog = true
   <-> is_contact dialog = false /\ is_bot dialog = false)
  /\ Dialog.name dialog ∈ _get_rule_based_chat_names folder all_dialogs.
Proof.
  intros Hin Hu Hc Hn Hb Hx.
  assert (is_personal_non_contact dialog = true
          <-> is_contact dialog = false /\ is_bot dialog = false) as Hp.
  { unfold is_personal_non_contact.
    rewrite Hu, !andb_true_iff, !negb_true_iff. tauto. }
  split; [done|].
  apply rule_names_elem. exists dialog. repeat split; try done.
  apply rule_included_true.
  destruct (is_contact dialog) eqn:Hct; [tauto|].
  destruct (is_bot dialog) eqn:Hbt; [tauto|].
  right; right; right; right. split; [done|]. by apply Hp.
Qed.

Lemma user_rules_cover_witness :
  (is_personal_non_contact Examples.stranger = true
   <-> is_contact Examples.stranger = false
       /\ is_bot Examples.stranger = false)
  /\ Dialog.name Examples.stranger
       ∈ _get_rule_based_chat_names Examples.all_users [Examples.stranger].
Proof.
  apply (user_rules_cover Examples.all_users [Examples.stranger]
           Examples.stranger);
    first [constructor | reflexivity].
Defined.

(** ** Further properties of the resolver *)

(** [str] of an integer can be read back, so it is injective. *)
Lemma str_of_int_inj (a b : Z) : Py.str_of_int a = Py.str_of_int b -> a = b.
Proof.
  unfold Py.str_of_int. intros Heq.
  assert (forall z, NilZero.int_of_string (NilZero.string_of_int (Z.to_int z))
                    = Some (Z.to_int z)) as Hback.
  { intros z. apply NilZero.isi; destruct z; simpl; try discriminate;
      intros [= H]; by apply Unsigned.to_uint_nonnil in H. }
  apply DecimalZ.to_int_inj.
  pose proof (Hback a) as Ha. rewrite Heq, Hback in Ha. congruence.
Qed.

Lemma str_app_nil (t : string) : "" +:+ t = t.
Proof. reflexivity. Qed.

Lemma str_app_cons (a : ascii) (s t : string) :
  String a s +:+ t = String a (s +:+ t).
Proof. reflexivity. Qed.

Lemma str_length_app (s t : string) :
  String.length (s +:+ t) = (String.length s + String.length t)%nat.
Proof.
  induction s as [|a s IH]; [done|].
  rewrite str_app_cons. simpl. by rewrite IH.
Qed.

Lemma string_app_inj_r (s1 s2 t : string) :
  s1 +:+ t = s2 +:+ t -> s1 = s2.
Proof.
  intros H.
  assert (String.length s1 = String.length s2) as Hlen.
  { apply (f_equal String.length) in H. rewrite !str_length_app in H. lia. }
  revert s2 H Hlen. induction s1 as [|a s1 IH]; intros [|b s2] H Hlen;
    simpl in Hlen; try done.
  rewrite !str_app_cons in H. injection H as -> H.
  f_equal. apply IH; [done|lia].
Qed.

(** Failed channel peers keep their identifiers apart, and so do failed user
    peers; but a channel and a user with one identifier get the same
    placeholder, and all chat peers get one and the same. *)
Theorem placeholder_collisions :
  (forall a b,
     placeholder (Peer.PeerChannel a) = placeholder (Peer.PeerChannel b) ->
     a = b)
  /\ (forall a b,
        placeholder (Peer.PeerUser a) = placeholder (Peer.PeerUser b) ->
        a = b)
  /\ (forall a,
        placeholder (Peer.PeerChannel a) = placeholder (Peer.PeerUser a))
  /\ (forall a b,
        placeholder (Peer.PeerChat a) = placeholder (Peer.PeerChat b)).
Proof.
  assert (forall a b,
    "Unknown/Inaccessible Entity (ID: " +:+ Py.str_of_int a +:+ ")"
    = "Unknown/Inaccessible Entity (ID: " +:+ Py.str_of_int b +:+ ")" ->
    a = b) as Hinj.
  { intros a b H. apply String.app_inj in H.
    apply string_app_inj_r in H. by apply str_of_int_inj. }
  split; [exact Hinj|]. split; [exact Hinj|]. split; reflexivity.
Qed.

(** ** Further properties of the folder loop *)

(** The record of a folder does not depend on the requests issued before,
    and its requests are those for the pinned, included and excluded peers,
    in this order. *)
Lemma folder_record_any_log (client : Client) (all_dialogs : list Dialog.t)
    (folder : DialogFilter.t) :
  exists r,
    (forall log,
       folder_record client all_dialogs folder log
       = (Py.Ok r, log ++ folder_peers folder))
    /\ FolderRecord.folder_id r = DialogFilter.id folder
    /\ FolderRecord.folder_name r = DialogFilter.title_text folder
    /\ FolderRecord.emoticon r
       = Py.str_or (DialogFilter.emoticon folder) "None".
Proof.
  eexists. split; [|split; [|split]].
  - intros log. unfold folder_record, Async.bind. rewrite !get_names_run.
    unfold Async.ret, folder_peers. rewrite !app_assoc. reflexivity.
  - reflexivity.
  - reflexivity.
  - reflexivity.
Qed.



Lemma rule_names_flags (f1 f2 : DialogFilter.t) (dialogs : list Dialog.t) :
  rules_le f1 f2 -> rules_le f2 f1 ->
  _get_rule_based_chat_names f1 dialogs
  = _get_rule_based_chat_names f2 dialogs.
Proof.
  intros H12 H21. rewrite !rule_names_filter. f_equal.
  apply list_filter_iff. intros d.
  rewrite !Is_true_true. split; by apply rule_match_mono.
Qed.

(** The pinned peers play no part in the included names: two folders with
    the same included and excluded peers and the same rule flags get the
    same included and excluded names, whatever their pinned peers. A pinned
    chat that is neither listed as included nor matched by a rule is not
    among the included names. *)
Theorem pinned_peers_not_included (client : Client)
    (all_dialogs : list Dialog.t) (f1 f2 : DialogFilter.t)
    (log1 log2 : list Peer.t) :
  DialogFilter.include_peers f1 = DialogFilter.include_peers f2 ->
  DialogFilter.exclude_peers f1 = DialogFilter.exclude_peers f2 ->
  rules_le f1 f2 -> rules_le f2 f1 ->
  exists r1 r2 log1' log2',
    folder_record client all_dialogs f1 log1 = (Py.Ok r1, log1')
    /\ folder_record client all_dialogs f2 log2 = (Py.Ok r2, log2')
    /\ FolderRecord.included_chats r1 = FolderRecord.included_chats r2
    /\ FolderRecord.excluded_chats r1 = FolderRecord.excluded_chats r2
    /\ (forall n,
          n ∈ FolderRecord.pinned_chats r1 ->
          n ∉ map (peer_name client) (DialogFilter.include_peers f1) ->
          n ∉ _get_rule_based_chat_names f1 all_dialogs ->
          n ∉ FolderRecord.included_chats r1).
Proof.
  intros Hi He H12 H21.
  destruct (folder_record_run client all_dialogs f1 log1)
    as (r1 & Hrun1 & Hincl1).
  destruct (folder_record_run client all_dialogs f2 log2)
    as (r2 & Hrun2 & Hincl2).
  eexists r1, r2, _, _. split; [exact Hrun1|]. split; [exact Hrun2|].
  split; [|split].
  - rewrite Hincl1, Hincl2, Hi, He. by rewrite (rule_names_flags f1 f2).
  - unfold folder_record, Async.bind in Hrun1, Hrun2.
    rewrite !get_names_run in Hrun1, Hrun2. unfold Async.ret in *.
    injection Hrun1 as <-. injection Hrun2 as <-. simpl. by rewrite He.
  - intros n _ Hni Hnr Hin.
    apply (included_chats_elem _ _ _ _ _ _ n Hrun1) in Hin. tauto.
Qed.

Lemma pinned_peers_not_included_witness :
  exists r1 r2 log1' log2',
    folder_record Examples.client Examples.dialogs
      (Examples.groups_only false false [Peer.PeerUser 7] [] []) []
    = (Py.Ok r1, log1')
    /\ folder_record Examples.client Examples.dialogs
         (Examples.groups_only false false [] [] []) []
       = (Py.Ok r2, log2')
    /\ FolderRecord.included_chats r1 = FolderRecord.included_chats r2
    /\ FolderRecord.excluded_chats r1 = FolderRecord.excluded_chats r2
    /\ (forall n,
          n ∈ FolderRecord.pinned_chats r1 ->
          n ∉ map (peer_name Examples.client) [] ->
          n ∉ _get_rule_based_chat_names
                (Examples.groups_only false false [Peer.PeerUser 7] [] [])
                Examples.dialogs ->
          n ∉ FolderRecord.included_chats r1).
Proof.
  apply (pinned_peers_not_included Examples.client Examples.dialogs
           (Examples.groups_only false false [Peer.PeerUser 7] [] [])
           (Examples.groups_only false false [] [] []) [] []);
    first [reflexivity | repeat split; simpl; auto].
Defined.

(** The emoticon of a record is never the empty string: a folder without
    emoticon, or with the empty one, gets the text "None", and any other
    emoticon is copied. *)
Theorem record_emoticon_never_empty (client : Client)
    (all_dialogs : list Dialog.t) (folder : DialogFilter.t)
    (log : list Peer.t) :
  exists r log',
    folder_record client all_dialogs folder log = (Py.Ok r, log')
    /\ FolderRecord.emoticon r <> ""
    /\ (DialogFilter.emoticon folder = None
        \/ DialogFilter.emoticon folder = Some "" ->
        FolderRecord.emoticon r = "None")
    /\ (forall s, DialogFilter.emoticon folder = Some s -> s <> "" ->
                  FolderRecord.emoticon r = s).
Proof.
  destruct (folder_record_any_log client all_dialogs folder)
    as (r & Hrun & _ & _ & Hemo).
  eexists r, _. split; [apply Hrun|]. rewrite Hemo. unfold Py.str_or.
  split; [|split].
  - destruct (DialogFilter.emoticon folder) as [s|]; [|done].
    by destruct (decide (s = "")).
  - by intros [->| ->].
  - intros s -> Hs. by rewrite decide_False.
Qed.

(** Failed chat peers cancel each other: since every failed chat peer gets
    the same placeholder, one failed chat peer among the excluded peers
    removes the placeholder of every failed chat peer among the included
    ones, whatever their identifiers. *)
Theorem failed_chat_peers_cancel (client : Client)
    (all_dialogs : list Dialog.t) (folder : DialogFilter.t)
    (log : list Peer.t) (a b : Z) (ea eb : Py.Exn) :
  Peer.PeerChat a ∈ DialogFilter.include_peers folder ->
  Peer.PeerChat b ∈ DialogFilter.exclude_peers folder ->
  get_entity client (Peer.PeerChat a) = Raised ea ->
  get_entity client (Peer.PeerChat b) = Raised eb ->
  exists r log',
    folder_record client all_dialogs folder log = (Py.Ok r, log')
    /\ placeholder (Peer.PeerChat a)
         ∈ map (peer_name client) (DialogFilter.include_peers folder)
    /\ placeholder (Peer.PeerChat a) ∉ FolderRecord.included_chats r.
Proof.
  intros Ha Hb Hfa Hfb.
  destruct (folder_record_run client all_dialogs folder log)
    as (r & Hrun & _).
  eexists r, _. split; [exact Hrun|]. split.
  - apply (list_elem_of_fmap_2' _ _ _ _ Ha). unfold peer_name. by rewrite Hfa.
  - intros Hin. apply (included_chats_elem _ _ _ _ _ _ _ Hrun) in Hin.
    destruct Hin as [_ Hnot]. apply Hnot.
    apply (list_elem_of_fmap_2' _ _ _ _ Hb). unfold peer_name. by rewrite Hfb.
Qed.

Lemma failed_chat_peers_cancel_witness :
  exists r log',
    folder_record Examples.offline Examples.dialogs
      (Examples.explicit_only [] [Peer.PeerChat 1] [Peer.PeerChat 2]) []
    = (Py.Ok r, log')
    /\ placeholder (Peer.PeerChat 1)
         ∈ map (peer_name Examples.offline) [Peer.PeerChat 1]
    /\ placeholder (Peer.PeerChat 1) ∉ FolderRecord.included_chats r.
Proof.
  apply (failed_chat_peers_cancel Examples.offline Examples.dialogs
           (Examples.explicit_only [] [Peer.PeerChat 1] [Peer.PeerChat 2])
           [] 1 2 (Py.RPCError "offline") (Py.RPCError "offline"));
    first [constructor | reflexivity].
Defined.

(** ** Properties of the master chat list *)

Lemma filters_lookup (c : Z) (t : string) :
  filters !! c = Some t
  <-> (c = 1 /\ t = "Personal") \/ (c = 2 /\ t = "Group")
      \/ (c = 3 /\ t = "Channel") \/ (c = 4 /\ t = "Bot").
Proof.
  unfold filters.
  change (list_to_map [(1, "Personal"); (2, "Group"); (3, "Channel");
                       (4, "Bot")] : gmap Z string)
    with (<[1:="Personal"]> (<[2:="Group"]> (<[3:="Channel"]>
            (<[4:="Bot"]> (∅ : gmap Z string))))).
  destruct (decide (c = 1)) as [->|H1].
  { rewrite lookup_insert_eq. split; [intros [= <-]; tauto|].
    intros [[_ ->]|[[? _]|[[? _]|[? _]]]]; done. }
  rewrite lookup_insert_ne by done.
  destruct (decide (c = 2)) as [->|H2].
  { rewrite lookup_insert_eq. split; [intros [= <-]; tauto|].
    intros [[? _]|[[_ ->]|[[? _]|[? _]]]]; done. }
  rewrite lookup_insert_ne by done.
  destruct (decide (c = 3)) as [->|H3].
  { rewrite lookup_insert_eq. split; [intros [= <-]; tauto|].
    intros [[? _]|[[? _]|[[_ ->]|[? _]]]]; done. }
  rewrite lookup_insert_ne by done.
  destruct (decide (c = 4)) as [->|H4].
  { rewrite lookup_insert_eq. split; [intros [= <-]; tauto|].
    intros [[? _]|[[? _]|[[? _]|[_ ->]]]]; done. }
  rewrite lookup_insert_ne by done. rewrite lookup_empty.
  split; [done|]. intros [[? _]|[[? _]|[[? _]|[? _]]]]; done.
Qed.

Lemma selected_types_elem (choices : gset Z) (t : string) :
  t ∈ selected_types_of choices
  <-> exists c, filters !! c = Some t /\ (c ∈ choices \/ 5 ∈ choices).
Proof.
  unfold selected_types_of.
  assert (t ∈ (list_to_set (omap (fun c => filters !! c) (elements choices))
               : gset string)
          <-> exists c, filters !! c = Some t /\ c ∈ choices) as Hsel.
  { rewrite elem_of_list_to_set, list_elem_of_omap.
    split; intros (c & H1 & H2); exists c; by rewrite ?elem_of_elements in *. }
  assert (t ∈ (list_to_set (snd <$> map_to_list filters) : gset string)
          <-> exists c, filters !! c = Some t) as Hall.
  { rewrite elem_of_list_to_set, list_elem_of_fmap. split.
    - intros ([c t'] & -> & Hin). apply elem_of_map_to_list in Hin. by exists c.
    - intros (c & Hc). exists (c, t). split; [done|].
      by apply elem_of_map_to_list. }
  case_bool_decide as H5.
  - rewrite elem_of_union, Hsel, Hall. split.
    + intros [(c & Hc & _)|(c & Hc)]; exists c; tauto.
    + intros (c & Hc & _). right. by exists c.
  - rewrite Hsel. split; intros (c & Hc & Hin); exists c; tauto.
Qed.

Lemma valid_type_choices_elem (choices : gset Z) (c : Z) :
  valid_type_choices choices = true -> c ∈ choices -> 1 <= c <= 5.
Proof.
  unfold valid_type_choices. rewrite forallb_forall. intros Hall Hc.
  apply elem_of_elements, list_elem_of_In, Hall in Hc.
  by apply bool_decide_eq_true in Hc.
Qed.

Lemma selected_types_nonempty (choices : gset Z) :
  valid_type_choices choices = true -> choices <> ∅ ->
  selected_types_of choices <> ∅.
Proof.
  intros Hvalid Hne. apply set_choose_L in Hne as [c Hc].
  pose proof (valid_type_choices_elem _ _ Hvalid Hc) as Hrange.
  assert (exists t, t ∈ selected_types_of choices) as [t Ht].
  2: { intros Hempty. rewrite Hempty in Ht.
       exact (not_elem_of_empty (C:=gset string) t Ht). }
  destruct (decide (c = 5)) as [->|Hc5].
  - exists "Personal". apply selected_types_elem. exists 1.
    split; [by apply filters_lookup; left|by right].
  - assert (c = 1 \/ c = 2 \/ c = 3 \/ c = 4) as Hcases by lia.
    destruct Hcases as [->|[->|[->| ->]]].
    + exists "Personal". apply selected_types_elem. exists 1.
      split; [apply filters_lookup; tauto|by left].
    + exists "Group". apply selected_types_elem. exists 2.
      split; [apply filters_lookup; tauto|by left].
    + exists "Channel". apply selected_types_elem. exists 3.
      split; [apply filters_lookup; tauto|by left].
    + exists "Bot". apply selected_types_elem. exists 4.
      split; [apply filters_lookup; tauto|by left].
Qed.

Lemma master_loop_filter (selected_types : gset string)
    (dialogs : list Dialog.t) (extracted_data : list MasterRecord.t) :
  fold_left (master_step selected_types) dialogs extracted_data
  = extracted_data
    ++ ((fun d => master_record d (_get_chat_type_string d))
        <$> filter
              (fun d => selected_types = ∅
                        \/ _get_chat_type_string d ∈ selected_types)
              dialogs).
Proof.
  revert extracted_data.
  induction dialogs as [|d ds IH]; intros acc; simpl.
  - by rewrite app_nil_r.
  - rewrite IH. unfold master_step. rewrite filter_cons.
    destruct (decide (selected_types = ∅
                      \/ _get_chat_type_string d ∈ selected_types))
      as [Hyes|Hno].
    + replace (bool_decide (selected_types = ∅)
               || bool_decide (_get_chat_type_string d ∈ selected_types))
        with true.
      * by rewrite <- app_assoc.
      * symmetry. apply orb_true_iff.
        destruct Hyes; [left|right]; by apply bool_decide_eq_true.
    + replace (bool_decide (selected_types = ∅)
               || bool_decide (_get_chat_type_string d ∈ selected_types))
        with false; [done|].
      symmetry. apply orb_false_iff.
      split; apply bool_decide_eq_false; tauto.
Qed.

(** After an accepted, non-empty set of choices (the prompt accepts numbers
    from 1 to 5 only, and the comma-separated answer always holds at least
    one number) some type is selected. Hence a dialog is exported exactly
    when one of the chosen numbers, or the choice 5 with any of the four
    numbers, stands for its type; the records keep the order of the
    dialogs. *)
Theorem master_list_members (choices : gset Z) (dialogs : list Dialog.t)
    (r : MasterRecord.t) :
  valid_type_choices choices = true ->
  choices <> ∅ ->
  (r ∈ _extract_master_list choices dialogs
   <-> exists d, d ∈ dialogs
                 /\ r = master_record d (_get_chat_type_string d)
                 /\ exists c, filters !! c = Some (_get_chat_type_string d)
                              /\ (c ∈ choices \/ 5 ∈ choices))
  /\ (MasterRecord.chat_name <$> _extract_master_list choices dialogs)
       `sublist_of` (Dialog.name <$> dialogs).
Proof.
  intros Hvalid Hne. unfold _extract_master_list.
  rewrite master_loop_filter. simpl.
  pose proof (selected_types_nonempty _ Hvalid Hne) as Hsel. split.
  - rewrite list_elem_of_fmap. split.
    + intros (d & -> & Hd). apply list_elem_of_filter in Hd as [[He|Ht] Hin];
        [done|].
      exists d. split; [done|]. split; [done|]. by apply selected_types_elem.
    + intros (d & Hin & -> & Hc). exists d. split; [done|].
      apply list_elem_of_filter. split; [|done]. right.
      by apply selected_types_elem.
  - rewrite <- list_fmap_compose.
    replace (MasterRecord.chat_name
             ∘ (fun d => master_record d (_get_chat_type_string d)))
      with Dialog.name by done.
    apply fmap_sublist, sublist_filter.
Qed.

Lemma master_list_members_witness :
  (master_record (Examples.channel 12 "News") "Channel"
     ∈ _extract_master_list {[3]} Examples.dialogs
   <-> exists d, d ∈ Examples.dialogs
                 /\ master_record (Examples.channel 12 "News") "Channel"
                    = master_record d (_get_chat_type_string d)
                 /\ exists c, filters !! c = Some (_get_chat_type_string d)
                              /\ (c ∈ ({[3]} : gset Z)
                                  \/ 5 ∈ ({[3]} : gset Z)))
  /\ (MasterRecord.chat_name <$> _extract_master_list {[3]} Examples.dialogs)
       `sublist_of` (Dialog.name <$> Examples.dialogs).
Proof.
  apply (master_list_members {[3]} Examples.dialogs
           (master_record (Examples.channel 12 "News") "Channel")).
  - vm_compute. reflexivity.
  - intros H. assert ((3 : Z) ∈ (∅ : gset Z)) as H3; [|set_solver].
    rewrite <- H. set_solver.
Defined.

(** A dialog of Unknown type is never exported, not even under choice 5,
    "All (include everything)": the test [not selected_types] that would let
    it through cannot hold after an accepted, non-empty set of choices. *)
Theorem master_list_never_unknown (choices : gset Z)
    (dialogs : list Dialog.t) :
  valid_type_choices choices = true ->
  choices <> ∅ ->
  selected_types_of choices <> ∅
  /\ ("Unknown" ∉ selected_types_of choices)
  /\ forall r, r ∈ _extract_master_list choices dialogs ->
               MasterRecord.chat_type r <> "Unknown".
Proof.
  intros Hvalid Hne.
  pose proof (selected_types_nonempty _ Hvalid Hne) as Hsel.
  assert ("Unknown" ∉ selected_types_of choices) as Hunk.
  { intros H. apply selected_types_elem in H as (c & Hc & _).
    apply filters_lookup in Hc.
    destruct Hc as [[_ ?]|[[_ ?]|[[_ ?]|[_ ?]]]]; done. }
  split; [done|]. split; [done|].
  intros r Hr. unfold _extract_master_list in Hr.
  rewrite master_loop_filter in Hr. simpl in Hr.
  apply list_elem_of_fmap in Hr as (d & -> & Hd).
  apply list_elem_of_filter in Hd as [[He|Ht] _]; [done|].
  simpl. intros Heq. by rewrite Heq in Ht.
Qed.

Lemma master_list_never_unknown_witness :
  selected_types_of {[5]} <> ∅
  /\ ("Unknown" ∉ selected_types_of {[5]})
  /\ forall r, r ∈ _extract_master_list {[5]} Examples.namesakes ->
               MasterRecord.chat_type r <> "Unknown".
Proof.
  apply (master_list_never_unknown {[5]} Examples.namesakes).
  - vm_compute. reflexivity.
  - intros H. assert ((5 : Z) ∈ (∅ : gset Z)) as H5; [|set_solver].
    rewrite <- H. set_solver.
Defined.

(** Choice 5 absorbs the other choices: a set of choices that contains 5
    exports what 5 alone exports. *)
Theorem master_choice_all_absorbs (choices : gset Z)
    (dialogs : list Dialog.t) :
  5 ∈ choices ->
  _extract_master_list choices dialogs = _extract_master_list {[5]} dialogs.
Proof.
  intros H5. unfold _extract_master_list.
  replace (selected_types_of choices) with (selected_types_of {[5]}); [done|].
  apply set_eq. intros t. rewrite !selected_types_elem.
  split; intros (c & Hc & _); exists c; (split; [done|]); right;
    [done|set_solver].
Qed.

Lemma master_choice_all_absorbs_witness :
  _extract_master_list {[2; 5]} Examples.dialogs
  = _extract_master_list {[5]} Examples.dialogs.
Proof.
  apply (master_choice_all_absorbs {[2; 5]} Examples.dialogs). set_solver.
Defined.

Example master_list_samples :
  MasterRecord.chat_name <$> _extract_master_list {[5]} Examples.namesakes
  = ["Twin"]
  /\ MasterRecord.chat_name <$> _extract_master_list {[3]} Examples.dialogs
     = ["News"]
  /\ MasterRecord.chat_name
       <$> _extract_master_list {[1; 2]} Examples.dialogs
     = ["Team Alpha"; "Team Beta"].
Proof. vm_compute. repeat split. Qed.

(** ** Properties of the folder selection *)

Lemma index_in_range {A : Type} (l : list A) (i : Z) :
  1 <= i <= Z.of_nat (length l) ->
  exists x, Py.index l (i - 1) = Py.Ok x /\ x ∈ l.
Proof.
  intros Hi. unfold Py.index.
  rewrite (bool_decide_eq_false_2 (i - 1 < 0)) by lia.
  rewrite (bool_decide_eq_false_2 (i - 1 < 0)) by lia.
  destruct (l !! Z.to_nat (i - 1)) as [x|] eqn:Hx.
  - exists x. split; [done|]. apply list_elem_of_lookup. eauto.
  - apply lookup_ge_None in Hx. lia.
Qed.

Lemma select_loop_run (folders : list DialogFilter.t) (choices : list Z) :
  forall selected,
  exists more,
    select_loop folders choices selected = Py.Ok (selected ++ more)
    /\ length more
       = length (filter (fun i => 1 <= i <= Z.of_nat (length folders))
                   choices)
    /\ forall f, f ∈ more -> f ∈ folders.
Proof.
  induction choices as [|i rest IH]; intros selected; simpl.
  - exists []. rewrite app_nil_r. split; [done|]. split; [done|].
    intros f Hf. by apply elem_of_nil in Hf.
  - rewrite filter_cons. case_bool_decide as Hi.
    + rewrite decide_True by done.
      destruct (index_in_range folders i Hi) as (x & -> & Hx).
      destruct (IH (selected ++ [x])) as (more & Hrun & Hlen & Hsub).
      exists (x :: more). rewrite Hrun, <- app_assoc. split; [done|].
      split; [simpl; by rewrite Hlen|].
      intros f Hf. apply elem_of_cons in Hf as [->|Hf]; auto.
    + rewrite decide_False by done. apply IH.
Qed.

Lemma filter_all {A : Type} (P : A -> Prop) `{forall x, Decision (P x)}
    (l : list A) :
  (forall x, x ∈ l -> P x) -> filter P l = l.
Proof.
  induction l as [|x l IH]; intros Hall; [done|].
  rewrite filter_cons_True by (apply Hall; constructor).
  f_equal. apply IH. intros y Hy. apply Hall. by constructor.
Qed.

Lemma in_range_length (n : nat) (l : list Z) :
  NoDup l -> (forall x, x ∈ l -> 1 <= x <= Z.of_nat n) ->
  (length l <= n)%nat.
Proof.
  intros Hnd Hrange.
  assert (l ⊆+ (Z.of_nat <$> seq 1 n)) as Hsub.
  { apply NoDup_submseteq; [done|]. intros x Hx. apply Hrange in Hx.
    apply list_elem_of_fmap. exists (Z.to_nat x). split; [lia|].
    apply elem_of_seq. lia. }
  apply submseteq_length in Hsub.
  by rewrite length_fmap, length_seq in Hsub.
Qed.

Lemma select_folders_run (folders : list DialogFilter.t)
    (choices : gset Z) :
  exists selected,
    select_folders folders choices = Py.Ok selected
    /\ (forall f, f ∈ selected -> f ∈ folders)
    /\ (length selected <= length folders)%nat
    /\ (Z.of_nat (length folders) + 1 ∈ choices -> selected = folders)
    /\ (Z.of_nat (length folders) + 1 ∉ choices ->
        valid_folder_choices folders choices = true ->
        length selected = size choices).
Proof.
  unfold select_folders. case_bool_decide as Hall.
  - exists folders. repeat split; done.
  - destruct (select_loop_run folders (elements choices) [])
      as (more & Hrun & Hlen & Hsub).
    exists more. split; [done|]. split; [done|]. split; [|split].
    + rewrite Hlen. apply in_range_length.
      * apply NoDup_filter, NoDup_elements.
      * intros x Hx. by apply list_elem_of_filter in Hx as [Hx _].
    + intros Hyes. by destruct Hall.
    + intros _ Hvalid. rewrite Hlen.
      replace (filter (fun i => 1 <= i <= Z.of_nat (length folders))
                 (elements choices))
        with (elements choices); [done|].
      symmetry. apply filter_all. intros c Hc.
      unfold valid_folder_choices in Hvalid.
      rewrite forallb_forall in Hvalid.
      pose proof Hc as Hin. apply list_elem_of_In, Hvalid in Hin.
      apply bool_decide_eq_true in Hin. apply elem_of_elements in Hc.
      assert (c <> Z.of_nat (length folders) + 1) by (intros ->; done).
      lia.
Qed.


(** The selection never raises, whatever the set of choices: every index
    used is in range. The selected folders are folders of the account and
    never more than there are; with the number after the last folder among
    the choices they are all the folders, in their order; otherwise, for an
    accepted set of choices, there is one selected folder per chosen
    number. *)
Theorem select_folders_safe (folders : list DialogFilter.t)
    (choices : gset Z) :
  exists selected,
    select_folders folders choices = Py.Ok selected
    /\ (forall f, f ∈ selected -> f ∈ folders)
    /\ (length selected <= length folders)%nat
    /\ (Z.of_nat (length folders) + 1 ∈ choices -> selected = folders)
    /\ (Z.of_nat (length folders) + 1 ∉ choices ->
        valid_folder_choices folders choices = true ->
        length selected = size choices).
Proof. apply select_folders_run. Qed.

Example select_folders_samples :
  select_folders [Examples.all_groups; Examples.channels_only;
                  Examples.all_users] {[2]}
  = Py.Ok [Examples.channels_only]
  /\ select_folders [Examples.all_groups; Examples.channels_only] {[3; 1]}
     = Py.Ok [Examples.all_groups; Examples.channels_only]
  /\ select_folders [Examples.all_groups] {[7; 0; -1]} = Py.Ok [].
Proof. vm_compute. repeat split. Qed.

Lemma Forall2_elem_of_right {A B : Type} (P : A -> B -> Prop)
    (l : list A) (k : list B) (y : B) :
  Forall2 P l k -> y ∈ k -> exists x, x ∈ l /\ P x y.
Proof.
  induction 1 as [|x y' l k HP _ IH]; intros Hy.
  - by apply elem_of_nil in Hy.
  - apply elem_of_cons in Hy as [->|Hy].
    + exists x. split; [constructor|done].
    + destruct (IH Hy) as (x' & Hx' & HP'). exists x'.
      split; [by constructor|done].
Qed.

(** ** Properties of the CSV export *)

Lemma str_app_assoc (s t u : string) : (s +:+ t) +:+ u = s +:+ (t +:+ u).
Proof.
  induction s as [|a s IH]; [done|]. rewrite !str_app_cons. by rewrite IH.
Qed.

Lemma str_app_nil_r (s : string) : s +:+ "" = s.
Proof. induction s as [|a s IH]; [done|]. by rewrite str_app_cons, IH. Qed.

Lemma join_cons_cons (sep x y : string) (rest : list string) :
  Py.join sep (x :: y :: rest) = x +:+ sep +:+ Py.join sep (y :: rest).
Proof. reflexivity. Qed.

(** Joining loses the list: a name that contains the separator reads as two
    names, and the empty list reads as the list of one empty name. So the
    cell written for a list of names does not determine the list. *)
Theorem join_separator_ambiguity (a b : string) (rest : list string) :
  Py.join ", " ((a +:+ ", " +:+ b) :: rest) = Py.join ", " (a :: b :: rest)
  /\ process_value (VList ((a +:+ ", " +:+ b) :: rest))
     = process_value (VList (a :: b :: rest))
  /\ process_value (VList []) = process_value (VList [""]).
Proof.
  assert (Py.join ", " ((a +:+ ", " +:+ b) :: rest)
          = Py.join ", " (a :: b :: rest)) as H.
  { destruct rest as [|c rest].
    - reflexivity.
    - rewrite !join_cons_cons. by rewrite !str_app_assoc. }
  split; [done|]. split; [|done]. unfold process_value. by rewrite H.
Qed.

Lemma split_head (s1 s2 r1 r2 : string) :
  ~ occurs "," s1 -> ~ occurs "," s2 ->
  (r1 = "" \/ exists r, r1 = String "," r) ->
  (r2 = "" \/ exists r, r2 = String "," r) ->
  s1 +:+ r1 = s2 +:+ r2 -> s1 = s2 /\ r1 = r2.
Proof.
  revert s2. induction s1 as [|a s1 IH]; intros [|b s2] H1 H2 Hr1 Hr2 Heq.
  - by rewrite !str_app_nil in Heq.
  - rewrite str_app_nil, str_app_cons in Heq.
    destruct Hr1 as [->|[r ->]]; [done|].
    injection Heq as <- _. destruct H2. by left.
  - rewrite str_app_nil, str_app_cons in Heq.
    destruct Hr2 as [->|[r ->]]; [done|].
    injection Heq as -> _. destruct H1. by left.
  - rewrite !str_app_cons in Heq. injection Heq as -> Heq.
    destruct (IH s2) as [-> ->]; try done.
    + intros H. apply H1. by right.
    + intros H. apply H2. by right.
Qed.

Lemma join_inj (l1 : list string) :
  forall l2,
    l1 <> [] -> l2 <> [] ->
    Forall (fun s => ~ occurs "," s) l1 ->
    Forall (fun s => ~ occurs "," s) l2 ->
    Py.join ", " l1 = Py.join ", " l2 -> l1 = l2.
Proof.
  induction l1 as [|x1 r1 IH]; intros [|x2 r2] Hn1 Hn2 Hc1 Hc2 Heq;
    try done.
  apply Forall_cons in Hc1 as [Hx1 Hc1].
  apply Forall_cons in Hc2 as [Hx2 Hc2].
  destruct r1 as [|y1 r1], r2 as [|y2 r2].
  - simpl in Heq. by rewrite Heq.
  - rewrite join_cons_cons in Heq. simpl in Heq.
    rewrite <- (str_app_nil_r x1) in Heq at 1.
    apply split_head in Heq as [_ Heq]; try done; [by left|].
    right. eexists. apply str_app_cons.
  - rewrite join_cons_cons in Heq. simpl in Heq.
    rewrite <- (str_app_nil_r x2) in Heq.
    apply split_head in Heq as [_ Heq]; try done; [|by left].
    right. eexists. apply str_app_cons.
  - rewrite !join_cons_cons in Heq.
    apply split_head in Heq as [-> Heq]; try done;
      try (right; eexists; apply str_app_cons).
    apply String.app_inj in Heq. f_equal. by apply IH.
Qed.

(** Without a comma in any name the cell does determine a non-empty list of
    names: joining is injective on such lists. *)
Theorem join_injective_without_commas (l1 l2 : list string) :
  l1 <> [] -> l2 <> [] ->
  Forall (fun s => ~ occurs "," s) l1 ->
  Forall (fun s => ~ occurs "," s) l2 ->
  process_value (VList l1) = process_value (VList l2) -> l1 = l2.
Proof.
  intros Hn1 Hn2 Hc1 Hc2 Heq. simpl in Heq. injection Heq as Heq.
  by apply join_inj.
Qed.

Lemma join_injective_without_commas_witness :
  ["Team Alpha"; "News"] = ["Team Alpha"; "News"].
Proof.
  apply (join_injective_without_commas
           ["Team Alpha"; "News"] ["Team Alpha"; "News"]);
    first [discriminate | reflexivity | idtac].
  - repeat constructor; simpl; intros H;
      repeat (destruct H as [H|H]; [discriminate H|]); exact H.
  - repeat constructor; simpl; intros H;
      repeat (destruct H as [H|H]; [discriminate H|]); exact H.
Defined.

(** For one or more folder records the writer gets the fourteen field names
    of the first record and one row per record, in order; every row has
    exactly these fields in this order, so no row has a field the writer
    does not know; no cell is a list any more, and the three list fields
    hold their names joined by a comma and a space. *)
Theorem csv_table_folder_rows (r : FolderRecord.t)
    (rest : list FolderRecord.t) :
  exists rows,
    csv_table (folder_row <$> r :: rest)
    = Some (["folder_name"; "folder_id"; "emoticon"; "pinned_chats";
             "included_chats"; "excluded_chats"; "rule_contacts";
             "rule_non_contacts"; "rule_groups"; "rule_channels";
             "rule_bots"; "rule_exclude_muted"; "rule_exclude_read";
             "rule_exclude_archived"], rows)
    /\ length rows = S (length rest)
    /\ Forall2
         (fun record row =>
            fst <$> row
            = ["folder_name"; "folder_id"; "emoticon"; "pinned_chats";
               "included_chats"; "excluded_chats"; "rule_contacts";
               "rule_non_contacts"; "rule_groups"; "rule_channels";
               "rule_bots"; "rule_exclude_muted"; "rule_exclude_read";
               "rule_exclude_archived"]
            /\ (forall item l, item ∈ row -> snd item <> VList l)
            /\ ("pinned_chats",
                VStr (Py.join ", " (FolderRecord.pinned_chats record)))
                 ∈ row
            /\ ("included_chats",
                VStr (Py.join ", " (FolderRecord.included_chats record)))
                 ∈ row
            /\ ("excluded_chats",
                VStr (Py.join ", " (FolderRecord.excluded_chats record)))
                 ∈ row)
         (r :: rest) rows.
Proof.
  exists (process_row <$> (folder_row <$> r :: rest)).
  split; [reflexivity|]. split; [by rewrite !length_fmap|].
  apply Forall2_fmap_r, Forall2_fmap_r, Forall_Forall2_diag, Forall_forall.
  intros record _. split; [reflexivity|]. split.
  - intros item l Hitem.
    unfold process_row, folder_row in Hitem. simpl in Hitem.
    repeat (apply elem_of_cons in Hitem as [->|Hitem]; [done|]).
    by apply elem_of_nil in Hitem.
  - unfold process_row, folder_row. simpl.
    repeat split; repeat (first [apply list_elem_of_here
                                | apply list_elem_of_further]).
Qed.

Example csv_table_sample :
  csv_table
    [folder_row (FolderRecord.mk "Work" 1 "None" [] ["Team Alpha"; "News"]
                   ["Old, archived"] false false true false false false
                   false false)]
  = Some (["folder_name"; "folder_id"; "emoticon"; "pinned_chats";
           "included_chats"; "excluded_chats"; "rule_contacts";
           "rule_non_contacts"; "rule_groups"; "rule_channels";
           "rule_bots"; "rule_exclude_muted"; "rule_exclude_read";
           "rule_exclude_archived"],
          [[("folder_name", VStr "Work"); ("folder_id", VInt 1);
            ("emoticon", VStr "None"); ("pinned_chats", VStr "");
            ("included_chats", VStr "Team Alpha, News");
            ("excluded_chats", VStr "Old, archived");
            ("rule_contacts", VBool false);
            ("rule_non_contacts", VBool false);
            ("rule_groups", VBool true); ("rule_channels", VBool false);
            ("rule_bots", VBool false); ("rule_exclude_muted", VBool false);
            ("rule_exclude_read", VBool false);
            ("rule_exclude_archived", VBool false)]]).
Proof. reflexivity. Qed.

(** ** Properties of the login dialogue *)

Lemma login_handle_outcome (e : Login.Exn) (sent : option string)
    (o : Login.Outcome) :
  Login.handle e sent = inr o -> o = Login.Return false.
Proof. destruct e; simpl; congruence. Qed.

Lemma login_step_not_waiting (s s' : Login.State) (r : Login.Reply) :
  Login.step s r <> inr (Login.Waiting s').
Proof.
  destruct s as [|[h|]| |h|sent], r as [[|]|[e|h']|[e|]|[e|]]; simpl;
    try done; intros H; try (by apply login_handle_outcome in H);
    destruct e; done.
Qed.

Lemma login_run_app (s : Login.State) (pre post : list Login.Reply) :
  Login.run s (pre ++ post)
  = match Login.run s pre with
    | Login.Waiting s' => Login.run s' post
    | o => o
    end.
Proof.
  revert s. induction pre as [|r pre IH]; intros s; simpl; [done|].
  destruct (Login.step s r) as [s'|o] eqn:Hstep; [apply IH|].
  destruct o as [b|e|s'|]; try done.
  by apply login_step_not_waiting in Hstep.
Qed.

Lemma login_step_true (s : Login.State) (r : Login.Reply) :
  Login.step s r = inr (Login.Return true) -> r = Login.IsAuthorized true.
Proof.
  destruct s as [|[h|]| |h|sent], r as [[|]|[e|h']|[e|]|[e|]]; simpl;
    try done; intros H; try (by apply login_handle_outcome in H);
    destruct e; done.
Qed.

Lemma login_step_propagate (s : Login.State) (r : Login.Reply)
    (e : Login.Exn) :
  Login.step s r = inr (Login.Propagate e) ->
  r = Login.SignInPassword (Some e)
  /\ e <> Login.PasswordHashInvalidError
  /\ exists sent, s = Login.Password sent.
Proof.
  destruct s as [|[h|]| |h|sent], r as [[|]|[e'|h']|[e'|]|[e'|]]; simpl;
    try done; intros H; try (by apply login_handle_outcome in H).
  destruct e'; try done; injection H as <-; (split; [done|]);
    (split; [done|]); by exists sent.
Qed.

Lemma login_run_outcome (script : list Login.Reply) :
  forall (s : Login.State) (o : Login.Outcome),
    Login.run s script = o ->
    (forall s', o <> Login.Waiting s') ->
    exists pre r rest s',
      script = pre ++ r :: rest
      /\ Login.run s pre = Login.Waiting s'
      /\ Login.step s' r = inr o.
Proof.
  induction script as [|r script IH]; intros s o Hrun Hfinal; simpl in Hrun.
  - by destruct (Hfinal s).
  - destruct (Login.step s r) as [s1|o1] eqn:Hstep.
    + destruct (IH s1 o Hrun Hfinal) as (pre & r' & rest & s' & -> & Hpre & Hr').
      exists (r :: pre), r', rest, s'. split; [done|]. split; [|done].
      simpl. by rewrite Hstep.
    + subst o1. exists [], r, script, s. by rewrite Hstep.
Qed.

(** The login reports success only on the word of the client: it returns
    [True] exactly when, after a dialogue that left it waiting, the client
    answers [is_user_authorized()] with true. *)
Theorem login_success (script : list Login.Reply) :
  _handle_login script = Login.Return true
  <-> exists pre rest s,
        script = pre ++ Login.IsAuthorized true :: rest
        /\ _handle_login pre = Login.Waiting s
        /\ (s = Login.Start \/ exists sent, s = Login.LoopHead sent).
Proof.
  unfold _handle_login. split.
  - intros Hrun.
    destruct (login_run_outcome script _ _ Hrun) as
      (pre & r & rest & s & -> & Hpre & Hstep); [done|].
    pose proof (login_step_true _ _ Hstep) as ->.
    exists pre, rest, s. split; [done|]. split; [done|].
    destruct s as [|sent| | |]; try done; [by left|right; by exists sent].
  - intros (pre & rest & s & -> & Hpre & Hs).
    rewrite login_run_app, Hpre.
    destruct Hs as [->|[sent ->]]; [done|]. by destruct sent.
Qed.

Lemma login_step_counts (s s' : Login.State) (r : Login.Reply) :
  Login.step s r = inl s' ->
  (Login.codes_sent [r] + Login.held s
   <= Login.codes_expired [r] + Login.held s')%nat.
Proof.
  destruct s as [|[h|]| |h|[h|]], r as [[|]|[e|h']|[e|]|[e|]]; simpl;
    try done; try destruct e; simpl; intros [= <-]; simpl;
    unfold Login.codes_sent, Login.codes_expired; simpl; lia.
Qed.

Lemma login_run_counts (script : list Login.Reply) :
  forall s s',
    Login.run s script = Login.Waiting s' ->
    (Login.codes_sent script + Login.held s
     <= Login.codes_expired script + Login.held s')%nat.
Proof.
  induction script as [|r script IH]; intros s s' Hrun; simpl in Hrun.
  - injection Hrun as <-. unfold Login.codes_sent, Login.codes_expired.
    simpl. lia.
  - destruct (Login.step s r) as [s1|o] eqn:Hstep.
    + pose proof (login_step_counts _ _ _ Hstep) as H1.
      pose proof (IH _ _ Hrun) as H2.
      change (r :: script) with ([r] ++ script).
      unfold Login.codes_sent, Login.codes_expired in *.
      rewrite !List.filter_app, !length_app. lia.
    + subst o. by apply login_step_not_waiting in Hstep.
Qed.

(** A wrong code never costs a new code: at every point of the dialogue the
    codes sent are at most one more than the expired-code errors met. A new
    code is requested at the start and after [PhoneCodeExpiredError] only
    (or when a request itself failed and left no code). *)
Theorem login_code_requests (script : list Login.Reply) (s : Login.State) :
  _handle_login script = Login.Waiting s ->
  (Login.codes_sent script <= Login.codes_expired script + 1)%nat.
Proof.
  intros Hrun. apply login_run_counts in Hrun. simpl in Hrun.
  assert (Login.held s <= 1)%nat; [|lia].
  destruct s as [|[h|]| |h|[h|]]; simpl; lia.
Qed.

Lemma login_code_requests_witness :
  (Login.codes_sent
     [Login.IsAuthorized false; Login.IsAuthorized false;
      Login.CodeRequest (inr "h1");
      Login.SignIn (Some Login.PhoneCodeInvalidError);
      Login.IsAuthorized false;
      Login.SignIn (Some Login.PhoneCodeExpiredError);
      Login.IsAuthorized false; Login.CodeRequest (inr "h2")]
   <= Login.codes_expired
        [Login.IsAuthorized false; Login.IsAuthorized false;
         Login.CodeRequest (inr "h1");
         Login.SignIn (Some Login.PhoneCodeInvalidError);
         Login.IsAuthorized false;
         Login.SignIn (Some Login.PhoneCodeExpiredError);
         Login.IsAuthorized false; Login.CodeRequest (inr "h2")] + 1)%nat.
Proof.
  apply (login_code_requests _ (Login.SignInCode "h2")). reflexivity.
Defined.

Example login_samples :
  _handle_login [Login.IsAuthorized true] = Login.Return true
  /\ _handle_login
       [Login.IsAuthorized false; Login.IsAuthorized false;
        Login.CodeRequest (inr "h");
        Login.SignIn (Some Login.PhoneCodeInvalidError);
        Login.IsAuthorized false; Login.SignIn None;
        Login.IsAuthorized true]
     = Login.Return true
  /\ _handle_login
       [Login.IsAuthorized false; Login.IsAuthorized false;
        Login.CodeRequest (inr "h");
        Login.SignIn (Some Login.SessionPasswordNeededError);
        Login.SignInPassword (Some Login.PasswordHashInvalidError);
        Login.SignInPassword None; Login.IsAuthorized true]
     = Login.Return true
  /\ _handle_login
       [Login.IsAuthorized false; Login.IsAuthorized false;
        Login.CodeRequest (inl Login.ApiIdInvalidError)]
     = Login.Return false
  /\ _handle_login
       [Login.IsAuthorized false; Login.IsAuthorized false;
        Login.CodeRequest (inr "h");
        Login.SignIn (Some Login.SessionPasswordNeededError);
        Login.SignInPassword (Some Login.OtherError)]
     = Login.Propagate Login.OtherError.
Proof. repeat split. Qed.

(** ** The rule matcher on raw dialogs *)

Example raw_matcher_samples :
  Raw._get_rule_based_chat_names RawExamples.unarchived_groups
    RawExamples.twins = Py.Ok ["Twin"]
  /\ Raw._get_rule_based_chat_names RawExamples.unmuted_groups
       RawExamples.twins = Py.Raise (Py.AttributeError "muted")
  /\ Raw._get_rule_based_chat_names RawExamples.unread_groups
       RawExamples.twins = Py.Raise (Py.AttributeError "unread_mark").
Proof. repeat split. Qed.

(** With [exclude_muted] and [exclude_read] unset neither attribute is
    read, and the skip condition is the archive toggle alone. *)
Lemma raw_rule_excluded_no_status (folder : DialogFilter.t)
    (dialog : Raw.Dialog.t) :
  reads_no_status folder ->
  Raw.rule_excluded folder dialog
  = Py.Ok (DialogFilter.exclude_archived folder
           && Raw.Dialog.archived dialog).
Proof.
  intros [Hm Hr]. unfold Raw.rule_excluded. rewrite Hm, Hr. simpl.
  by destruct (DialogFilter.exclude_archived folder).
Qed.

(** When the archive toggle fires the skip condition is true, unless
    reading an attribute raises before. *)
Lemma raw_rule_excluded_archived (folder : DialogFilter.t)
    (dialog : Raw.Dialog.t) (b : bool) :
  DialogFilter.exclude_archived folder = true ->
  Raw.Dialog.archived dialog = true ->
  Raw.rule_excluded folder dialog = Py.Ok b -> b = true.
Proof.
  intros Ha Hd. unfold Raw.rule_excluded. rewrite Ha, Hd.
  destruct (DialogFilter.exclude_muted folder),
    (Raw.Dialog.muted dialog) as [[|]|],
    (DialogFilter.exclude_read folder),
    (bool_decide (Raw.Dialog.unread_count dialog = 0)),
    (Raw.Dialog.unread_mark dialog) as [[|]|]; simpl; congruence.
Qed.

Lemma raw_rule_step_match (folder : DialogFilter.t) (names : list string)
    (dialog : Raw.Dialog.t) (b : bool) :
  Raw.rule_excluded folder dialog = Py.Ok b ->
  Raw.rule_step folder names dialog
  = Py.Ok (names ++ (if Raw.rule_match folder dialog
                     then [Raw.Dialog.name dialog] else [])).
Proof.
  intros Hx. unfold Raw.rule_step, Raw.rule_match. rewrite Hx.
  destruct b; [by rewrite app_nil_r|].
  destruct (Raw.rule_included folder dialog); by rewrite ?app_nil_r.
Qed.

Lemma raw_rule_step_ok (folder : DialogFilter.t) (names out : list string)
    (dialog : Raw.Dialog.t) :
  Raw.rule_step folder names dialog = Py.Ok out ->
  exists b, Raw.rule_excluded folder dialog = Py.Ok b.
Proof.
  unfold Raw.rule_step.
  destruct (Raw.rule_excluded folder dialog) as [b|e]; [eauto|done].
Qed.

Lemma raw_rule_loop_total (folder : DialogFilter.t)
    (dialogs : list Raw.Dialog.t) :
  forall names,
    (forall d, d ∈ dialogs -> exists b, Raw.rule_excluded folder d = Py.Ok b) ->
    Raw.rule_loop folder dialogs names
    = Py.Ok (names ++ (Raw.Dialog.name
                       <$> filter (fun d => Raw.rule_match folder d) dialogs)).
Proof.
  induction dialogs as [|d ds IH]; intros names Hall; simpl.
  - by rewrite app_nil_r.
  - destruct (Hall d) as [b Hb]; [constructor|].
    rewrite (raw_rule_step_match _ _ _ _ Hb).
    rewrite IH by (intros d' Hd'; apply Hall; by constructor).
    destruct (Raw.rule_match folder d) eqn:Hm.
    + rewrite filter_cons_True by (by rewrite Hm). by rewrite <- app_assoc.
    + rewrite filter_cons_False by (rewrite Hm; exact id).
      by rewrite app_nil_r.
Qed.

Lemma raw_rule_loop_ok (folder : DialogFilter.t)
    (dialogs : list Raw.Dialog.t) :
  forall names out,
    Raw.rule_loop folder dialogs names = Py.Ok out ->
    forall d, d ∈ dialogs -> exists b, Raw.rule_excluded folder d = Py.Ok b.
Proof.
  induction dialogs as [|d ds IH]; intros names out Hrun d' Hd'.
  - by apply elem_of_nil in Hd'.
  - simpl in Hrun.
    destruct (Raw.rule_step folder names d) as [names'|e] eqn:Hstep; [|done].
    apply elem_of_cons in Hd' as [->|Hd'].
    + by apply raw_rule_step_ok in Hstep.
    + by apply (IH names' out).
Qed.

Lemma raw_rule_names_filter (folder : DialogFilter.t)
    (dialogs : list Raw.Dialog.t) (names : list string) :
  Raw._get_rule_based_chat_names folder dialogs = Py.Ok names ->
  names = Raw.Dialog.name
          <$> filter (fun d => Raw.rule_match folder d) dialogs.
Proof.
  intros Hrun. unfold Raw._get_rule_based_chat_names in Hrun.
  pose proof (raw_rule_loop_ok _ _ _ _ Hrun) as Hall.
  rewrite (raw_rule_loop_total _ _ [] Hall) in Hrun. by injection Hrun.
Qed.

Lemma raw_rule_match_true (folder : DialogFilter.t) (d : Raw.Dialog.t) :
  Raw.rule_match folder d = true
  <-> Raw.rule_excluded folder d = Py.Ok false
      /\ Raw.rule_included folder d = true.
Proof.
  unfold Raw.rule_match.
  destruct (Raw.rule_excluded folder d) as [[|]|e]; split;
    try done; try (by intros [? ?]); tauto.
Qed.

Lemma raw_rule_names_elem (folder : DialogFilter.t)
    (dialogs : list Raw.Dialog.t) (names : list string) (n : string) :
  Raw._get_rule_based_chat_names folder dialogs = Py.Ok names ->
  n ∈ names
  <-> exists d, d ∈ dialogs /\ Raw.Dialog.name d = n
                /\ Raw.rule_excluded folder d = Py.Ok false
                /\ Raw.rule_included folder d = true.
Proof.
  intros Hrun. rewrite (raw_rule_names_filter _ _ _ Hrun).
  rewrite list_elem_of_fmap. split.
  - intros (d & -> & Hd). apply list_elem_of_filter in Hd as [Hm Hin].
    apply Is_true_true, raw_rule_match_true in Hm. by exists d.
  - intros (d & Hin & <- & Hx & Hi). exists d. split; [done|].
    apply list_elem_of_filter. split; [|done].
    apply Is_true_true, raw_rule_match_true. done.
Qed.

(** The matcher returns when no folder toggle reads a status attribute, and
    then gives what the matcher on plain dialogs gives. *)
Lemma raw_matcher_plain (folder : DialogFilter.t)
    (dialogs : list Raw.Dialog.t) :
  reads_no_status folder ->
  Raw._get_rule_based_chat_names folder dialogs
  = Py.Ok (_get_rule_based_chat_names folder (plain_dialog <$> dialogs)).
Proof.
  intros Hno. unfold Raw._get_rule_based_chat_names.
  rewrite raw_rule_loop_total
    by (intros d _; rewrite raw_rule_excluded_no_status by done; eauto).
  rewrite rule_names_filter. f_equal. simpl.
  induction dialogs as [|d ds IH]; [done|].
  assert (Raw.rule_match folder d = rule_match folder (plain_dialog d)) as Hm.
  { unfold Raw.rule_match, rule_match.
    rewrite raw_rule_excluded_no_status by done.
    destruct Hno as [Hm Hr]. unfold rule_excluded. rewrite Hm, Hr. simpl.
    by destruct (DialogFilter.exclude_archived folder
                 && Raw.Dialog.archived d). }
  rewrite fmap_cons.
  destruct (Raw.rule_match folder d) eqn:Hraw.
  - rewrite filter_cons_True by (by rewrite Hraw).
    rewrite filter_cons_True by (by rewrite <- Hm).
    rewrite !fmap_cons. by rewrite IH.
  - rewrite filter_cons_False by (rewrite Hraw; exact id).
    rewrite filter_cons_False by (rewrite <- Hm; exact id). done.
Qed.

(** The slip: a folder with [exclude_muted] makes the matcher fail on the
    first dialog that has no [muted]; a folder with [exclude_read] and not
    [exclude_muted] makes it fail on a first dialog with no unread message
    and no [unread_mark]. *)
Lemma raw_matcher_attribute_error (folder : DialogFilter.t)
    (dialog : Raw.Dialog.t) (rest : list Raw.Dialog.t) :
  (DialogFilter.exclude_muted folder = true ->
   Raw.Dialog.muted dialog = None ->
   Raw._get_rule_based_chat_names folder (dialog :: rest)
   = Py.Raise (Py.AttributeError "muted"))
  /\ (DialogFilter.exclude_muted folder = false ->
      DialogFilter.exclude_read folder = true ->
      Raw.Dialog.unread_count dialog = 0 ->
      Raw.Dialog.unread_mark dialog = None ->
      Raw._get_rule_based_chat_names folder (dialog :: rest)
      = Py.Raise (Py.AttributeError "unread_mark")).
Proof.
  unfold Raw._get_rule_based_chat_names. simpl.
  unfold Raw.rule_step, Raw.rule_excluded. split.
  - by intros -> ->.
  - intros -> -> -> ->. done.
Qed.

(** C2, as amended. When [exclude_archived] is set and a dialog of the list
    is archived, the matcher skips it: wherever the matcher returns a
    result, and it does whenever [exclude_muted] and [exclude_read] are
    unset, the iteration for that dialog leaves the list of names as it
    was, even if the dialog satisfies an inclusion rule, and the result is
    that of the dialog list without it. Its name is in the result exactly
    when another dialog of the same name is not skipped and satisfies an
    inclusion rule. What happens under [exclude_muted] and [exclude_read] is
    not stated here. *)
Theorem C2_archived_dialog_skipped (folder : DialogFilter.t)
    (all_dialogs : list Raw.Dialog.t) (dialog : Raw.Dialog.t) :
  dialog ∈ all_dialogs ->
  DialogFilter.exclude_archived folder = true ->
  Raw.Dialog.archived dialog = true ->
  (DialogFilter.exclude_muted folder = false ->
   DialogFilter.exclude_read folder = false ->
   exists names,
     Raw._get_rule_based_chat_names folder all_dialogs = Py.Ok names)
  /\ forall names,
       Raw._get_rule_based_chat_names folder all_dialogs = Py.Ok names ->
       (forall acc, Raw.rule_step folder acc dialog = Py.Ok acc)
       /\ (forall ds1 ds2,
             all_dialogs = ds1 ++ dialog :: ds2 ->
             Raw._get_rule_based_chat_names folder (ds1 ++ ds2)
             = Py.Ok names)
       /\ (Raw.Dialog.name dialog ∈ names
           <-> exists d, d ∈ all_dialogs /\ d <> dialog
                         /\ Raw.Dialog.name d = Raw.Dialog.name dialog
                         /\ Raw.rule_excluded folder d = Py.Ok false
                         /\ Raw.rule_included folder d = true).
Proof.
  intros Hin Ha Hd. split.
  { intros Hm Hr. eexists. by apply raw_matcher_plain. }
  intros names Hrun.
  pose proof Hrun as Hall. unfold Raw._get_rule_based_chat_names in Hall.
  pose proof (raw_rule_loop_ok _ _ _ _ Hall) as Hok. clear Hall.
  destruct (Hok dialog Hin) as [b Hb].
  pose proof (raw_rule_excluded_archived _ _ _ Ha Hd Hb) as ->.
  assert (Raw.rule_match folder dialog = false) as Hm.
  { unfold Raw.rule_match. by rewrite Hb. }
  split; [|split].
  - intros acc. unfold Raw.rule_step. by rewrite Hb.
  - intros ds1 ds2 ->. unfold Raw._get_rule_based_chat_names.
    rewrite raw_rule_loop_total.
    + rewrite (raw_rule_names_filter _ _ _ Hrun). simpl. do 2 f_equal.
      rewrite !filter_app, filter_cons_False; [done|].
      rewrite Hm. exact id.
    + intros d Hd'. apply Hok. apply elem_of_app in Hd' as [Hd'|Hd'];
        apply elem_of_app; [by left|right; by constructor].
  - rewrite (raw_rule_names_elem _ _ _ _ Hrun). split.
    + intros (d & Hd' & Hn & Hx & Hi). exists d. repeat split; try done.
      intros ->. congruence.
    + intros (d & Hd' & _ & Hn & Hx & Hi). by exists d.
Qed.

Lemma C2_archived_dialog_skipped_witness :
  (DialogFilter.exclude_muted RawExamples.unarchived_groups = false ->
   DialogFilter.exclude_read RawExamples.unarchived_groups = false ->
   exists names,
     Raw._get_rule_based_chat_names RawExamples.unarchived_groups
       RawExamples.twins = Py.Ok names)
  /\ forall names,
       Raw._get_rule_based_chat_names RawExamples.unarchived_groups
         RawExamples.twins = Py.Ok names ->
       (forall acc,
          Raw.rule_step RawExamples.unarchived_groups acc
            RawExamples.archived_twin = Py.Ok acc)
       /\ (forall ds1 ds2,
             RawExamples.twins = ds1 ++ RawExamples.archived_twin :: ds2 ->
             Raw._get_rule_based_chat_names RawExamples.unarchived_groups
               (ds1 ++ ds2) = Py.Ok names)
       /\ (Raw.Dialog.name RawExamples.archived_twin ∈ names
           <-> exists d, d ∈ RawExamples.twins
                         /\ d <> RawExamples.archived_twin
                         /\ Raw.Dialog.name d
                            = Raw.Dialog.name RawExamples.archived_twin
                         /\ Raw.rule_excluded RawExamples.unarchived_groups d
                            = Py.Ok false
                         /\ Raw.rule_included RawExamples.unarchived_groups d
                            = true).
Proof.
  apply (C2_archived_dialog_skipped RawExamples.unarchived_groups
           RawExamples.twins RawExamples.archived_twin).
  - constructor.
  - reflexivity.
  - reflexivity.
Defined.

(** C2, as stated, fails: an archived group is skipped under
    [exclude_archived], yet its name is in the result, put there by a group
    of the same name that is not archived. The dialogs have no [muted] and
    no [unread_mark], and the folder sets neither of the two toggles that
    read them. *)
Lemma C2_counterexample :
  RawExamples.archived_twin ∈ RawExamples.twins
  /\ DialogFilter.exclude_archived RawExamples.unarchived_groups = true
  /\ Raw.Dialog.archived RawExamples.archived_twin = true
  /\ Raw.rule_excluded RawExamples.unarchived_groups
       RawExamples.archived_twin = Py.Ok true
  /\ Raw._get_rule_based_chat_names RawExamples.unarchived_groups
       RawExamples.twins = Py.Ok ["Twin"]
  /\ Raw.Dialog.name RawExamples.archived_twin ∈ ["Twin"].
Proof.
  split; [constructor|]. repeat split. constructor.
Qed.

(** ** The resolver on raw entities *)

Lemma raw_names_loop_map (client : Raw.Client) (peers : list Peer.t) :
  forall (rest : list Peer.t) (i : nat) (names : list (option string)),
    drop i peers = rest ->
    Raw.names_loop peers i (map (Raw.get_entity client) rest) names
    = Py.Ok (names ++ map (Raw.peer_name client) rest).
Proof.
  induction rest as [|p rest IH]; intros i names Hdrop; simpl.
  - by rewrite app_nil_r.
  - assert (peers !! i = Some p) as Hp.
    { rewrite <- (Nat.add_0_r i), <- lookup_drop, Hdrop. done. }
    assert (drop (S i) peers = rest) as Hrest.
    { rewrite (drop_S _ _ _ Hp) in Hdrop. by injection Hdrop. }
    unfold Raw.peer_name at 1.
    destruct (Raw.get_entity client p) as [e|res].
    + rewrite Hp, IH by done. by rewrite <- app_assoc.
    + rewrite IH by done. by rewrite <- app_assoc.
Qed.

Lemma raw_get_names_run (client : Raw.Client) (peers log : list Peer.t) :
  Raw._get_names_for_peers client peers log
  = (Py.Ok (map (Raw.peer_name client) peers), log ++ peers).
Proof.
  destruct peers as [|p ps].
  - unfold Raw._get_names_for_peers, Async.ret. by rewrite app_nil_r.
  - unfold Raw._get_names_for_peers, Async.bind, Raw.gather, Async.lift.
    by rewrite (raw_names_loop_map client (p :: ps) (p :: ps) 0 []).
Qed.

(** Where the names are strings the priority order holds: the title, else
    the first name, else "User " and the id. *)
Lemma raw_display_name_strings (res : Raw.Entity.t) :
  (forall t, Raw.Entity.title res = Some (Some t) ->
             Raw.display_name res = Some t)
  /\ (forall f, Raw.Entity.title res = None ->
                Raw.Entity.first_name res = Some (Some f) ->
                Raw.display_name res = Some f)
  /\ (Raw.Entity.title res = None -> Raw.Entity.first_name res = None ->
      Raw.display_name res
      = Some ("User " +:+ Py.str_of_int (Raw.Entity.id res))).
Proof.
  unfold Raw.display_name. repeat split.
  - by intros t ->.
  - by intros f -> ->.
  - by intros -> ->.
Qed.

(** A slot that is a string is the slot of the resolver on plain
    entities. *)
Lemma raw_peer_name_plain (client : Raw.Client) (p : Peer.t) :
  Raw.peer_name client p <> None ->
  Raw.peer_name client p = Some (peer_name (plain_client client) p).
Proof.
  unfold Raw.peer_name, peer_name, plain_client. simpl.
  destruct (Raw.get_entity client p) as [e|res]; [done|].
  unfold Raw.display_name, display_name, plain_entity. simpl.
  destruct (Raw.Entity.title res) as [[t|]|]; simpl; try done.
  destruct (Raw.Entity.first_name res) as [[f|]|]; simpl; done.
Qed.

Example raw_resolver_samples :
  Raw._get_names_for_peers RawExamples.client
    [Peer.PeerUser 5; Peer.PeerChannel 1; Peer.PeerChat 9] []
  = (Py.Ok [None; Some "Team Alpha";
            Some "Unknown/Inaccessible Entity (ID: N/A)"],
     [Peer.PeerUser 5; Peer.PeerChannel 1; Peer.PeerChat 9]).
Proof. vm_compute. reflexivity. Qed.

(** C8. An entity whose [first_name] exists and is [None], and which has no
    [title], gets [None] as its name, whatever its id: neither a title, nor
    a first name, nor "User " and the id. The resolver then returns a list
    that holds [None], and sorting the included names of a folder that
    lists such an entity beside another name raises [TypeError]. *)
Theorem C8_none_first_name :
  (forall id contact bot,
     Raw.display_name (Raw.Entity.mk id None (Some None) contact bot) = None)
  /\ Raw._get_names_for_peers RawExamples.client [Peer.PeerUser 5] []
     = (Py.Ok [None], [Peer.PeerUser 5])
  /\ fst (Raw.folder_record RawExamples.client [] RawExamples.with_deleted [])
     = Py.Raise Py.TypeError.
Proof.
  split; [reflexivity|]. split; vm_compute; reflexivity.
Qed.

(** ** The folder loop on raw objects *)

Lemma raw_strings_some (names : list (option string)) :
  (forall n, n ∈ names -> n <> None) ->
  exists l, Raw.strings names = Some l.
Proof.
  induction names as [|n names IH]; intros Hall; simpl; [eauto|].
  destruct n as [s|]; [|by destruct (Hall None); [constructor|]].
  destruct IH as [l ->]; [|eauto].
  intros n Hn. apply Hall. by constructor.
Qed.

Lemma raw_sorted_ok (names : list (option string)) :
  (forall n, n ∈ names -> n <> None) ->
  exists out, Raw.sorted names = Py.Ok out.
Proof.
  intros Hall. unfold Raw.sorted.
  destruct (raw_strings_some names Hall) as [l ->]. eauto.
Qed.

(** For a folder that reads no status attribute and whose peers all get a
    string as name, the loop body returns a record, the same whatever was
    requested before. *)
Lemma raw_folder_record_run (client : Raw.Client)
    (all_dialogs : list Raw.Dialog.t) (folder : DialogFilter.t) :
  reads_no_status folder ->
  names_are_strings client folder ->
  exists r,
    (forall log,
       Raw.folder_record client all_dialogs folder log
       = (Py.Ok r, log ++ folder_peers folder))
    /\ Raw.FolderRecord.folder_id r = DialogFilter.id folder
    /\ Raw.FolderRecord.folder_name r = DialogFilter.title_text folder.
Proof.
  intros Hno Hstr.
  destruct (raw_sorted_ok
    (filter (fun name =>
               name ∉ map (Raw.peer_name client)
                        (DialogFilter.exclude_peers folder))
       (elements
          ((list_to_set
              (map (Raw.peer_name client) (DialogFilter.include_peers folder))
            : gset (option string))
           ∪ list_to_set
               (Some <$> _get_rule_based_chat_names folder
                           (plain_dialog <$> all_dialogs))))))
    as [out Hout].
  { intros n Hn. apply list_elem_of_filter in Hn as [_ Hn].
    apply elem_of_elements, elem_of_union in Hn as [Hn|Hn];
      apply elem_of_list_to_set, list_elem_of_fmap in Hn as (x & -> & Hx);
      [|done].
    apply Hstr. unfold folder_peers. rewrite !elem_of_app. tauto. }
  eexists. split; [|split].
  - intros log. unfold Raw.folder_record, Async.bind.
    rewrite !raw_get_names_run. unfold Async.lift.
    rewrite (raw_matcher_plain _ _ Hno). rewrite Hout.
    unfold Async.ret, folder_peers. rewrite !app_assoc. reflexivity.
  - reflexivity.
  - reflexivity.
Qed.

Lemma raw_extract_loop_full (client : Raw.Client)
    (all_dialogs : list Raw.Dialog.t)
    (selected_folders : list DialogFilter.t) :
  (forall f, f ∈ selected_folders ->
             reads_no_status f /\ names_are_strings client f) ->
  exists records,
    (forall extracted_data log,
       Raw.extract_loop client all_dialogs selected_folders extracted_data log
       = (Py.Ok (extracted_data ++ records),
          log ++ concat (folder_peers <$> selected_folders)))
    /\ Forall2
         (fun folder r =>
            (forall log,
               Raw.folder_record client all_dialogs folder log
               = (Py.Ok r, log ++ folder_peers folder))
            /\ Raw.FolderRecord.folder_id r = DialogFilter.id folder
            /\ Raw.FolderRecord.folder_name r
               = DialogFilter.title_text folder)
         selected_folders records.
Proof.
  induction selected_folders as [|folder rest IH]; intros Hall.
  - exists []. split; [|constructor]. intros acc log. simpl.
    by rewrite !app_nil_r.
  - destruct (Hall folder) as [Hno Hstr]; [constructor|].
    destruct (raw_folder_record_run client all_dialogs folder Hno Hstr)
      as (r & Hr & Hid & Hname).
    destruct IH as (records & Hrun & Hrec).
    { intros f Hf. apply Hall. by constructor. }
    exists (r :: records). split; [|constructor; auto].
    intros acc log. simpl. unfold Async.bind. rewrite Hr, Hrun.
    by rewrite <- !app_assoc.
Qed.

(** When no selected folder sets [exclude_muted] or [exclude_read] and
    every name resolved for their peers is a string, the loop over the
    selected folders returns one record per folder, in the order of the
    folders, carrying the folder's id and title; each record is the one the
    loop body builds for that folder alone. *)
Theorem raw_extract_folders_records (client : Raw.Client)
    (all_dialogs : list Raw.Dialog.t) (selected_folders : list DialogFilter.t)
    (log : list Peer.t) :
  (forall f, f ∈ selected_folders ->
             reads_no_status f /\ names_are_strings client f) ->
  exists records,
    Raw._extract_folders client all_dialogs selected_folders log
    = (Py.Ok records, log ++ concat (folder_peers <$> selected_folders))
    /\ length records = length selected_folders
    /\ Raw.FolderRecord.folder_id <$> records
       = DialogFilter.id <$> selected_folders
    /\ Raw.FolderRecord.folder_name <$> records
       = DialogFilter.title_text <$> selected_folders
    /\ Forall2
         (fun folder r =>
            forall l, fst (Raw.folder_record client all_dialogs folder l)
                      = Py.Ok r)
         selected_folders records.
Proof.
  intros Hall.
  destruct (raw_extract_loop_full client all_dialogs selected_folders Hall)
    as (records & Hrun & Hrec).
  exists records. unfold Raw._extract_folders. rewrite Hrun. simpl.
  split; [done|]. split; [symmetry; by eapply Forall2_length|].
  clear Hrun Hall.
  induction Hrec as [|f r fs rs (Hr & Hid & Hname) Hrec IH].
  - repeat split; constructor.
  - destruct IH as (IH1 & IH2 & IH3). rewrite !fmap_cons.
    rewrite Hid, Hname, IH1, IH2.
    repeat split. constructor; [|done]. intros l. by rewrite Hr.
Qed.

Lemma raw_extract_folders_records_witness :
  exists records,
    Raw._extract_folders RawExamples.client RawExamples.twins
      [RawExamples.with_channel; RawExamples.unarchived_groups] []
    = (Py.Ok records,
       [] ++ concat (folder_peers
                     <$> [RawExamples.with_channel;
                          RawExamples.unarchived_groups]))
    /\ length records = 2%nat
    /\ Raw.FolderRecord.folder_id <$> records
       = DialogFilter.id
         <$> [RawExamples.with_channel; RawExamples.unarchived_groups]
    /\ Raw.FolderRecord.folder_name <$> records
       = DialogFilter.title_text
         <$> [RawExamples.with_channel; RawExamples.unarchived_groups]
    /\ Forall2
         (fun folder r =>
            forall l,
              fst (Raw.folder_record RawExamples.client RawExamples.twins
                     folder l) = Py.Ok r)
         [RawExamples.with_channel; RawExamples.unarchived_groups] records.
Proof.
  apply (raw_extract_folders_records RawExamples.client RawExamples.twins
           [RawExamples.with_channel; RawExamples.unarchived_groups] []).
  intros f Hf.
  apply elem_of_cons in Hf as [->|Hf];
    [|apply elem_of_cons in Hf as [->|Hf]; [|by apply elem_of_nil in Hf]].
  - split; [split; reflexivity|]. intros p Hp.
    apply elem_of_cons in Hp as [->|Hp]; [discriminate|].
    by apply elem_of_nil in Hp.
  - split; [split; reflexivity|]. intros p Hp. by apply elem_of_nil in Hp.
Defined.

Example raw_folder_record_samples :
  fst (Raw.folder_record RawExamples.client RawExamples.twins
         RawExamples.with_channel [])
  = Py.Ok (Raw.FolderRecord.mk "Team" 6 "None" []
             [Some "Team Alpha"; Some "Twin"] []
             false false true false false false false true)
  /\ fst (Raw.folder_record RawExamples.client RawExamples.twins
            RawExamples.unmuted_groups [])
     = Py.Raise (Py.AttributeError "muted").
Proof. split; vm_compute; reflexivity. Qed.

(** When no [DialogFilter] of the container sets [exclude_muted] or
    [exclude_read] and every name resolved for their peers is a string, the
    folder export returns a list of records. Every record carries the id
    and title of a [DialogFilter] of the container, filters of other
    classes give no record, and there are never more records than such
    folders. Without any such folder nothing is requested and nothing is
    returned; with the number after the last folder among the choices there
    is one record per folder, in the order of the container. *)
Theorem raw_extract_selected_records (client : Raw.Client)
    (entries : list FilterEntry) (all_dialogs : list Raw.Dialog.t)
    (choices : gset Z) (log : list Peer.t) :
  (forall f, Filter f ∈ entries ->
             reads_no_status f /\ names_are_strings client f) ->
  exists records log',
    Raw.extract_selected client entries all_dialogs choices log
    = (Py.Ok records, log')
    /\ (forall r, r ∈ records ->
          exists f, Filter f ∈ entries
                    /\ Raw.FolderRecord.folder_id r = DialogFilter.id f
                    /\ Raw.FolderRecord.folder_name r
                       = DialogFilter.title_text f)
    /\ (length records <= length (dialog_filters entries))%nat
    /\ (dialog_filters entries = [] -> records = [] /\ log' = log)
    /\ (Z.of_nat (length (dialog_filters entries)) + 1 ∈ choices ->
        Raw.FolderRecord.folder_id <$> records
        = DialogFilter.id <$> dialog_filters entries).
Proof.
  intros Hall. unfold Raw.extract_selected.
  destruct (dialog_filters entries) as [|f0 fs] eqn:Hfolders.
  { exists [], log. split; [done|]. split.
    - intros r Hr. by apply elem_of_nil in Hr.
    - repeat split; done. }
  rewrite <- Hfolders.
  destruct (select_folders_run (dialog_filters entries) choices)
    as (selected & Hsel & Hsub & Hlen & Hevery & _).
  assert (forall f, f ∈ selected -> Filter f ∈ entries) as Hentries.
  { intros f Hf. apply Hsub, list_elem_of_omap in Hf as (e & He & Hfe).
    destruct e as [f'|]; [|done]. by injection Hfe as ->. }
  destruct (raw_extract_loop_full client all_dialogs selected)
    as (records & Hrun & Hrec).
  { intros f Hf. by apply Hall, Hentries. }
  exists records, (log ++ concat (folder_peers <$> selected)).
  split.
  { unfold Async.bind, Async.lift. rewrite Hsel.
    unfold Raw._extract_folders. by rewrite Hrun. }
  split; [|split; [|split]].
  - intros r Hr.
    destruct (Forall2_elem_of_right _ _ _ _ Hrec Hr)
      as (f & Hf & _ & Hid & Hname).
    exists f. split; [by apply Hentries|done].
  - rewrite <- (Forall2_length _ _ _ Hrec). exact Hlen.
  - rewrite Hfolders. done.
  - intros Hyes. rewrite (Hevery Hyes) in Hrec. clear -Hrec.
    induction Hrec as [|f r fs rs (_ & Hid & _) _ IH]; [done|].
    rewrite !fmap_cons. by rewrite Hid, IH.
Qed.

Lemma raw_extract_selected_records_witness :
  exists records log',
    Raw.extract_selected RawExamples.client
      [OtherFilter; Filter RawExamples.with_channel] RawExamples.twins
      {[2]} []
    = (Py.Ok records, log')
    /\ (forall r, r ∈ records ->
          exists f, Filter f ∈ [OtherFilter; Filter RawExamples.with_channel]
                    /\ Raw.FolderRecord.folder_id r = DialogFilter.id f
                    /\ Raw.FolderRecord.folder_name r
                       = DialogFilter.title_text f)
    /\ (length records
        <= length (dialog_filters
                     [OtherFilter; Filter RawExamples.with_channel]))%nat
    /\ (dialog_filters [OtherFilter; Filter RawExamples.with_channel] = [] ->
        records = [] /\ log' = [])
    /\ (Z.of_nat (length (dialog_filters
                            [OtherFilter; Filter RawExamples.with_channel]))
          + 1 ∈ ({[2]} : gset Z) ->
        Raw.FolderRecord.folder_id <$> records
        = DialogFilter.id
          <$> dialog_filters [OtherFilter; Filter RawExamples.with_channel]).
Proof.
  apply (raw_extract_selected_records RawExamples.client
           [OtherFilter; Filter RawExamples.with_channel] RawExamples.twins
           {[2]} []).
  intros f Hf.
  apply elem_of_cons in Hf as [Hf|Hf]; [discriminate Hf|].
  apply elem_of_cons in Hf as [Hf|Hf]; [|by apply elem_of_nil in Hf].
  injection Hf as ->.
  split; [split; reflexivity|]. intros p Hp.
  apply elem_of_cons in Hp as [->|Hp]; [discriminate|].
  by apply elem_of_nil in Hp.
Defined.

(** ** Exceptions in the login dialogue *)

(** An exception that [send_code_request] or [sign_in] with a code raises
    does not leave the login: the function goes on or returns [False]. An
    exception other than [PasswordHashInvalidError] that [sign_in] with a
    password raises does leave it: inside the loop over the password no
    other handler applies. *)
Theorem login_handled_and_escaping (pre : list Login.Reply)
    (e : Login.Exn) :
  (_handle_login pre = Login.Waiting Login.SendCode ->
   (exists s,
      _handle_login (pre ++ [Login.CodeRequest (inl e)]) = Login.Waiting s)
   \/ _handle_login (pre ++ [Login.CodeRequest (inl e)])
      = Login.Return false)
  /\ (forall sent,
        _handle_login pre = Login.Waiting (Login.SignInCode sent) ->
        (exists s,
           _handle_login (pre ++ [Login.SignIn (Some e)]) = Login.Waiting s)
        \/ _handle_login (pre ++ [Login.SignIn (Some e)])
           = Login.Return false)
  /\ (forall sent rest,
        _handle_login pre = Login.Waiting (Login.Password sent) ->
        e <> Login.PasswordHashInvalidError ->
        _handle_login (pre ++ Login.SignInPassword (Some e) :: rest)
        = Login.Propagate e)
  /\ (forall sent,
        _handle_login pre = Login.Waiting (Login.Password sent) ->
        _handle_login
          (pre ++ [Login.SignInPassword
                     (Some Login.PasswordHashInvalidError)])
        = Login.Waiting (Login.Password sent)).
Proof.
  unfold _handle_login. repeat split.
  - intros Hpre. rewrite login_run_app, Hpre. simpl.
    destruct e; simpl; eauto.
  - intros sent Hpre. rewrite login_run_app, Hpre. simpl.
    destruct e; simpl; eauto.
  - intros sent rest Hpre He. rewrite login_run_app, Hpre. simpl.
    by destruct e.
  - intros sent Hpre. by rewrite login_run_app, Hpre.
Qed.
